(** * Filter-to-query translation and aggregation engine

    A shallow embedding of the two query-translating services of the
    application, [app/services/data.py] ([DataService]) and
    [app/services/sop.py] ([SopService]), together with the request
    schemas of [app/schemas], and the properties of the translation that
    the specification states.

    Conventions of the embedding.
    - A Python [str] is a [string]: a sequence of 8-bit characters holding
      the text in UTF-8.  [bytes] is a [string] too, so [s.encode("utf-8")]
      is the identity.  Character predicates ([isalnum], [upper],
      [lower]) are modelled on the ASCII range; a character outside it is
      neither alphanumeric nor changed by a case mapping.
    - A [dict] used as a bag of named query parameters is a
      [gmap string any]; a [dict] whose key order is observed (a result
      row, the per-series accumulator) is an association list in
      insertion order.
    - A field annotated with an enumeration holds a member of it;
      [.value] is the text of the member.
    - A response model is the record of the values it is built from;
      the checks pydantic runs on the types of its fields are not
      modelled.
    - A method that mutates a [dict] argument returns the new [dict].
    - [async] methods run in the monad [io]: a computation either
      returns or raises, and records every statement sent to the store
      and every object-storage call in a trace.
    - [time.time()] and the [query_time_ms] / [expires_at] response
      fields (floating point, wall clock) are left out. *)

From Stdlib Require Import Ascii ZArith.
From stdpp Require Import base tactics option list strings pretty gmap.

#[local] Open Scope Z_scope.
#[local] Open Scope nat_scope.

(** ** Python primitives *)

Module Py.

(** [typing.Any] as it reaches the filter translator: a JSON scalar or
    a list. *)
#[warnings="-register-all"]
Inductive any : Type :=
| VNone
| VBool (b : bool)
| VInt (z : Z)
| VStr (s : string)
| VList (l : list any).

(** A value in a result row of the store. *)
Inductive cell : Type :=
| CNull
| CInt (z : Z)
| CStr (s : string).

(** A result row: [dict(zip(columns, row))], keys in column order. *)
Definition row : Type := list (string * cell).

Inductive exn : Type :=
| ValueError (msg : string)
| KeyError (key : string)
| TypeError (msg : string)
| ZeroDivisionError.

Inductive outcome (A : Type) : Type :=
| Returned (a : A)
| Raised (e : exn).
Arguments Returned {A} a.
Arguments Raised {A} e.

Definition is_raised {A} (o : outcome A) : bool :=
  match o with Raised _ => true | Returned _ => false end.

Definition nl : string := String "010"%char "".
Definition cr : string := String "013"%char "".
Definition dquote : ascii := "034"%char.
Definition backslash : ascii := "092"%char.

Fixpoint spaces (n : nat) : string :=
  match n with
  | O => ""
  | S n => String " "%char (spaces n)
  end.

(** [sep.join(parts)] *)
Fixpoint join (sep : string) (parts : list string) : string :=
  match parts with
  | [] => ""
  | [p] => p
  | p :: rest => p +:+ sep +:+ join sep rest
  end.

(** Concatenation of the pieces of an f-string. *)
Fixpoint concat (parts : list string) : string :=
  match parts with
  | [] => ""
  | p :: rest => p +:+ concat rest
  end.

Fixpoint str_filter (keep : ascii → bool) (s : string) : string :=
  match s with
  | EmptyString => EmptyString
  | String c s => if keep c then String c (str_filter keep s) else str_filter keep s
  end.

Fixpoint str_map (f : ascii → ascii) (s : string) : string :=
  match s with
  | EmptyString => EmptyString
  | String c s => String (f c) (str_map f s)
  end.

Fixpoint str_forall (p : ascii → bool) (s : string) : bool :=
  match s with
  | EmptyString => true
  | String c s => p c && str_forall p s
  end.

Fixpoint str_exists (p : ascii → bool) (s : string) : bool :=
  match s with
  | EmptyString => false
  | String c s => p c || str_exists p s
  end.

Definition between (lo hi : N) (c : ascii) : bool :=
  (lo <=? N_of_ascii c)%N && (N_of_ascii c <=? hi)%N.

Definition isdigit (c : ascii) : bool := between 48 57 c.
Definition isupper (c : ascii) : bool := between 65 90 c.
Definition islower (c : ascii) : bool := between 97 122 c.

(** [c.isalnum()] *)
Definition isalnum (c : ascii) : bool := isdigit c || isupper c || islower c.

Definition upper_char (c : ascii) : ascii :=
  if islower c then ascii_of_N (N_of_ascii c - 32) else c.
Definition lower_char (c : ascii) : ascii :=
  if isupper c then ascii_of_N (N_of_ascii c + 32) else c.

(** [s.upper()] and [s.lower()] *)
Definition upper : string → string := str_map upper_char.
Definition lower : string → string := str_map lower_char.

(** Truth value of a [str]: the empty string is false. *)
Definition truthy (s : string) : bool :=
  match s with EmptyString => false | String _ _ => true end.

(** Truth value of an optional [str] or [list]: [None] and the empty
    value are false. *)
Definition truthy_opt (o : option string) : bool :=
  match o with Some s => truthy s | None => false end.

Definition truthy_list {A} (o : option (list A)) : bool :=
  match o with Some (_ :: _) => true | _ => false end.

Definition truthy_cell (c : cell) : bool :=
  match c with
  | CNull => false
  | CInt z => negb (z =? 0)%Z
  | CStr s => truthy s
  end.

(** [str(i)] of an [int]. *)
Definition str_int (z : Z) : string := pretty z.
Definition str_nat (i : nat) : string := pretty i.

(** [str(v)] of a row value. *)
Definition str_cell (c : cell) : string :=
  match c with
  | CNull => "None"
  | CInt z => str_int z
  | CStr s => s
  end.

(** [row.get(key)] and [row[key]] on a result row. *)
Fixpoint row_get (r : row) (key : string) : option cell :=
  match r with
  | [] => None
  | (k, v) :: r => if String.eqb k key then Some v else row_get r key
  end.

Definition row_item (r : row) (key : string) : outcome cell :=
  match row_get r key with
  | Some v => Returned v
  | None => Raised (KeyError key)
  end.

Definition row_keys (r : row) : list string := r.*1.

(** [labels.get(key, default)] on a table of strings. *)
Fixpoint table_get (t : list (string * string)) (key default : string) : string :=
  match t with
  | [] => default
  | (k, v) :: t => if String.eqb k key then v else table_get t key default
  end.

(** [key in keys] *)
Definition str_in (key : string) (keys : list string) : bool :=
  existsb (String.eqb key) keys.

(** [{k: v for k, v in d.items() if k not in keys}] *)
Definition without_keys (keys : list string) (d : gmap string any)
    : gmap string any :=
  filter (λ kv, str_in kv.1 keys = false) d.

End Py.
Export Py.

(** ** The effects of a service call *)

(** What a service does to its collaborators: a statement sent to the
    store with its named parameters, an object written to object
    storage, a presigned URL requested. *)
Inductive event : Type :=
| Query (text : string) (parameters : gmap string any)
| Upload (object_name file_data content_type : string)
| Presign (object_name : string) (expires_hours : Z).

(** [ClickHouseDatabase]: the store answers a statement with rows. *)
Record ClickHouseDatabase : Type := {
  client_query : string → gmap string any → list row
}.

(** [MinIOClient]: the object store hands out URLs. *)
Record MinIOClient : Type := {
  presigned_url : string → Z → string
}.

(** The ambient sources [export_data] reads: [uuid4().hex] and
    [datetime.utcnow().strftime('%Y%m%d_%H%M%S')]. *)
Record Ambient : Type := {
  uuid4_hex : string;
  utcnow_stamp : string
}.

Definition io (A : Type) : Type := list event → outcome A * list event.

#[export] Instance io_ret : MRet io := λ A a tr, (Returned a, tr).
#[export] Instance io_bind : MBind io := λ A B f m tr,
  match m tr with
  | (Returned a, tr') => f a tr'
  | (Raised e, tr') => (Raised e, tr')
  end.

Definition raise {A} (e : exn) : io A := λ tr, (Raised e, tr).
Definition emit (ev : event) : io unit := λ tr, (Returned (), tr ++ [ev]).
Definition lift {A} (o : outcome A) : io A := λ tr, (o, tr).

(** Runs a call from the empty trace. *)
Definition run {A} (m : io A) : outcome A * list event := m [].

(** [for x in xs: ...] collecting one result per element. *)
Fixpoint for_each {A B} (f : A → io B) (xs : list A) : io (list B) :=
  match xs with
  | [] => mret []
  | x :: xs => y ← f x; ys ← for_each f xs; mret (y :: ys)
  end.

(** [ClickHouseDatabase.fetch_all] and [fetch_one]. *)
Definition fetch_all (db : ClickHouseDatabase) (query : string)
    (parameters : gmap string any) : io (list row) :=
  _ ← emit (Query query parameters);
  mret (client_query db query parameters).

Definition fetch_one (db : ClickHouseDatabase) (query : string)
    (parameters : gmap string any) : io (option row) :=
  rows ← fetch_all db query parameters;
  mret (match rows with r :: _ => Some r | [] => None end).

(** ** Request and response schemas ([app/schemas]) *)

(** [app/schemas/base.py] *)

Inductive SortOrder : Type := ASC | DESC.

Definition SortOrder_value (o : SortOrder) : string :=
  match o with ASC => "asc" | DESC => "desc" end.

Inductive FilterOperator : Type :=
| EQ | NEQ | GT | GTE | LT | LTE | IN | NOT_IN | LIKE | ILIKE
| BETWEEN | IS_NULL | IS_NOT_NULL.

Module FilterCondition.
Record t : Type := mk {
  field : string;
  operator : FilterOperator;
  value : any;
  values : option (list any)
}.
End FilterCondition.

Module FilterParams.
Record t : Type := mk {
  conditions : list FilterCondition.t;
  logic : string
}.
End FilterParams.

Module SortParams.
Record t : Type := mk {
  field : string;
  order : SortOrder
}.
End SortParams.

(** [app/schemas/data.py] *)

Inductive AggregationFunction : Type :=
| COUNT | SUM | AVG | MIN | MAX | DISTINCT_COUNT | MEDIAN
| PERCENTILE_90 | PERCENTILE_95 | PERCENTILE_99.

Definition AggregationFunction_value (f : AggregationFunction) : string :=
  match f with
  | COUNT => "count"
  | SUM => "sum"
  | AVG => "avg"
  | MIN => "min"
  | MAX => "max"
  | DISTINCT_COUNT => "uniqExact"
  | MEDIAN => "median"
  | PERCENTILE_90 => "quantile(0.9)"
  | PERCENTILE_95 => "quantile(0.95)"
  | PERCENTILE_99 => "quantile(0.99)"
  end.

Inductive TimeGranularity : Type :=
| MINUTE | HOUR | DAY | WEEK | MONTH | QUARTER | YEAR.

Definition TimeGranularity_value (g : TimeGranularity) : string :=
  match g with
  | MINUTE => "minute"
  | HOUR => "hour"
  | DAY => "day"
  | WEEK => "week"
  | MONTH => "month"
  | QUARTER => "quarter"
  | YEAR => "year"
  end.


Module ColumnAggregation.
Record t : Type := mk {
  column : string;
  function : AggregationFunction;
  alias : option string
}.
End ColumnAggregation.

Module DataQueryRequest.
Record t : Type := mk {
  data_source_id : option string;
  table_name : option string;
  columns : option (list string);
  filters : option FilterParams.t;
  sort : list SortParams.t;
  page : Z;
  page_size : Z
}.
End DataQueryRequest.

Module DataQueryResponse.
Record t : Type := mk {
  columns : list row;
  data : list row;
  total : Z;
  page : Z;
  page_size : Z;
  pages : Z
}.
End DataQueryResponse.

Module AggregationRequest.
Record t : Type := mk {
  data_source_id : option string;
  table_name : option string;
  aggregations : list ColumnAggregation.t;
  group_by : list string;
  filters : option FilterParams.t;
  time_column : option string;
  time_granularity : option TimeGranularity;
  sort : list SortParams.t;
  limit : Z
}.
End AggregationRequest.

Module AggregationResponse.
Record t : Type := mk {
  columns : list string;
  data : list row;
  total_rows : nat
}.
End AggregationResponse.

Module ChartDataRequest.
Record t : Type := mk {
  data_source_id : option string;
  table_name : option string;
  chart_type : string;
  x_column : string;
  y_columns : list string;
  y_aggregations : option (list AggregationFunction);
  filters : option FilterParams.t;
  time_granularity : option TimeGranularity;
  limit : Z
}.
End ChartDataRequest.

(** A chart point [{"x": ..., "y": ...}]. *)
Module Point.
Record t : Type := mk { x : cell; y : cell }.
End Point.

Module ChartSeries.
Record t : Type := mk {
  name : string;
  data : list Point.t
}.
End ChartSeries.

Module ChartDataResponse.
Record t : Type := mk {
  chart_type : string;
  series : list ChartSeries.t;
  x_axis_label : option string;
  y_axis_label : option string;
  total_points : nat
}.
End ChartDataResponse.

Module ExportRequest.
Record t : Type := mk {
  data_source_id : option string;
  table_name : option string;
  format : string;
  columns : option (list string);
  filters : option FilterParams.t;
  limit : option Z
}.
End ExportRequest.

Module ExportResponse.
Record t : Type := mk {
  file_url : string;
  file_name : string;
  file_size : nat;
  row_count : nat
}.
End ExportResponse.

(** [app/schemas/sop.py] *)

Module SopFilterParams.
Record t : Type := mk {
  years : option (list Z);
  months : option (list Z);
  priznaks : option (list string);
  drivers : option (list string);
  finkod_codes : option (list string);
  finkod_groups : option (list string);
  category_codes : option (list string);
  territories : option (list string);
  macroregion_codes : option (list string);
  units : option (list string);
  search : option string
}.
End SopFilterParams.

Module SopSortParams.
Record t : Type := mk {
  field : string;
  order : string
}.
End SopSortParams.

Module SopQueryRequest.
Record t : Type := mk {
  filters : option SopFilterParams.t;
  sort : list SopSortParams.t;
  page : Z;
  page_size : Z;
  columns : option (list string)
}.
End SopQueryRequest.

Module SopDataResponse.
Record t : Type := mk {
  columns : list (string * string);
  data : list row;
  total : Z;
  page : Z;
  page_size : Z;
  pages : Z
}.
End SopDataResponse.

Module SopAggregationRequest.
Record t : Type := mk {
  filters : option SopFilterParams.t;
  group_by : list string;
  aggregations : list string;
  value_column : string;
  time_granularity : option string;
  limit : Z
}.
End SopAggregationRequest.

Module SopAggregationResponse.
Record t : Type := mk {
  columns : list string;
  data : list row;
  total_rows : nat
}.
End SopAggregationResponse.

Module SopChartRequest.
Record t : Type := mk {
  filters : option SopFilterParams.t;
  chart_type : string;
  x_axis : string;
  y_axis : string;
  series_by : option string;
  aggregation : string;
  limit : Z
}.
End SopChartRequest.

Module SopChartSeries.
Record t : Type := mk {
  name : string;
  data : list Point.t
}.
End SopChartSeries.

Module SopChartResponse.
Record t : Type := mk {
  chart_type : string;
  x_axis_label : string;
  y_axis_label : string;
  series : list SopChartSeries.t;
  total_points : nat
}.
End SopChartResponse.

Module SopExportRequest.
Record t : Type := mk {
  filters : option SopFilterParams.t;
  columns : option (list string);
  format : string;
  limit : option Z
}.
End SopExportRequest.

Module SopExportResponse.
Record t : Type := mk {
  file_url : string;
  file_name : string;
  file_size : nat;
  row_count : nat
}.
End SopExportResponse.

Module DimensionValue.
Record t : Type := mk {
  code : cell;
  name : cell;
  count : option cell;
  parent_code : option cell
}.
End DimensionValue.

Module SopFiltersResponse.
Record t : Type := mk {
  years : list cell;
  territories : list DimensionValue.t;
  macroregions : list DimensionValue.t;
  categories : list DimensionValue.t;
  finkod_codes : list DimensionValue.t;
  drivers : list DimensionValue.t;
  priznaks : list DimensionValue.t;
  units : list DimensionValue.t
}.
End SopFiltersResponse.

(** ** [app/core/database.py]: rows as dictionaries *)

Module Database.

(** [d[key] = v] on a dictionary in insertion order. *)
Fixpoint dict_set (key : string) (v : cell) (d : row) : row :=
  match d with
  | [] => [(key, v)]
  | (k, x) :: d =>
      if String.eqb k key then (k, v) :: d else (k, x) :: dict_set key v d
  end.

(** [dict(zip(columns, row))] *)
Definition dict_zip (columns : list string) (values : list cell) : row :=
  foldl (λ d kv, dict_set kv.1 kv.2 d) [] (zip columns values).

(** The comprehension of [fetch_all] over [result.result_rows]. *)
Definition rows_as_dicts (column_names : list string)
    (result_rows : list (list cell)) : list row :=
  dict_zip column_names <$> result_rows.

(** What [insert] hands to the client: nothing for no data, else the
    column names (those of the first row when none are given) and, row
    by row, [row.get(col)] for each of them. *)
Definition insert_payload (data : list row) (column_names : option (list string))
    : option (list string * list (list cell)) :=
  match data with
  | [] => None
  | first :: _ =>
      let column_names :=
        match column_names with
        | Some names => names
        | None => row_keys first
        end in
      Some (column_names,
            (λ r, (λ col, default CNull (row_get r col)) <$> column_names) <$> data)
  end.

End Database.

(** ** Library encoders used by the export path *)

(** [csv.DictWriter] with the default dialect: comma delimiter, double
    quote as quote character, minimal quoting, CRLF line terminator. *)
Module Csv.

Definition special (c : ascii) : bool :=
  Ascii.eqb c ","%char || Ascii.eqb c dquote
  || Ascii.eqb c "013"%char || Ascii.eqb c "010"%char.

Fixpoint double_quotes (s : string) : string :=
  match s with
  | EmptyString => EmptyString
  | String c s =>
      if Ascii.eqb c dquote then String c (String c (double_quotes s))
      else String c (double_quotes s)
  end.

Definition quoted (s : string) : string :=
  String dquote (double_quotes s) +:+ String dquote "".

Definition field (s : string) : string :=
  if str_exists special s then quoted s else s.

(** [None] is written as the empty field, anything else as its [str]. *)
Definition field_text (c : cell) : string :=
  match c with CNull => "" | _ => str_cell c end.

(** [writer.writerow(fields)]: a lone empty field is quoted. *)
Definition record (fields : list string) : string :=
  match fields with
  | [EmptyString] => quoted ""
  | _ => join "," (field <$> fields)
  end +:+ cr +:+ nl.

(** [DictWriter._dict_to_list]: a key outside [fieldnames] is an error,
    a missing key is written as the empty string. *)
Definition dict_to_list (fieldnames : list string) (rowdict : row)
    : outcome (list string) :=
  if forallb (λ k, str_in k fieldnames) (row_keys rowdict)
  then Returned ((λ key, match row_get rowdict key with
                         | Some c => field_text c
                         | None => ""
                         end) <$> fieldnames)
  else Raised (ValueError "dict contains fields not in fieldnames").

Definition writerow (fieldnames : list string) (rowdict : row) : outcome string :=
  match dict_to_list fieldnames rowdict with
  | Returned fields => Returned (record fields)
  | Raised e => Raised e
  end.

Fixpoint writerows (fieldnames : list string) (rows : list row) : outcome string :=
  match rows with
  | [] => Returned ""
  | r :: rows =>
      match writerow fieldnames r with
      | Returned line =>
          match writerows fieldnames rows with
          | Returned rest => Returned (line +:+ rest)
          | Raised e => Raised e
          end
      | Raised e => Raised e
      end
  end.

End Csv.

(** [json.dumps(rows, default=str, indent=2)] on a list of result rows. *)
Module Json.

Definition hex_digit (n : N) : ascii :=
  if (n <? 10)%N then ascii_of_N (48 + n) else ascii_of_N (87 + n).

(** ['\\u{0:04x}'.format(n)] *)
Definition u_escape (n : N) : string :=
  String backslash (String "u"%char
    (String (hex_digit (N.land (N.shiftr n 12) 15))
    (String (hex_digit (N.land (N.shiftr n 8) 15))
    (String (hex_digit (N.land (N.shiftr n 4) 15))
    (String (hex_digit (N.land n 15)) ""))))).

Definition short_escape (c : ascii) : option string :=
  let esc (x : ascii) := Some (String backslash (String x "")) in
  if Ascii.eqb c backslash then esc backslash
  else if Ascii.eqb c dquote then esc dquote
  else if Ascii.eqb c "008"%char then esc "b"%char
  else if Ascii.eqb c "012"%char then esc "f"%char
  else if Ascii.eqb c "010"%char then esc "n"%char
  else if Ascii.eqb c "013"%char then esc "r"%char
  else if Ascii.eqb c "009"%char then esc "t"%char
  else None.

(** The code point escape of [ensure_ascii]: one escape below
    [0x10000], a surrogate pair above. *)
Definition code_point_escape (cp : N) : string :=
  if (cp <? 65536)%N then u_escape cp
  else
    let v := (cp - 65536)%N in
    u_escape (N.lor 55296 (N.land (N.shiftr v 10) 1023))
    +:+ u_escape (N.lor 56320 (N.land v 1023)).

Definition cont (c : ascii) : N := N.land (N_of_ascii c) 63.

(** The body of a JSON string literal.  With [ensure_ascii] every
    character outside [' '..'~'] is escaped by code point, which is
    decoded from the UTF-8 text. *)
Fixpoint escape (ensure_ascii : bool) (s : string) : string :=
  match s with
  | EmptyString => EmptyString
  | String c rest =>
      let n := N_of_ascii c in
      match short_escape c with
      | Some e => e +:+ escape ensure_ascii rest
      | None =>
          if (n <? 32)%N then u_escape n +:+ escape ensure_ascii rest
          else if negb ensure_ascii || (n <? 127)%N
          then String c (escape ensure_ascii rest)
          else if (n <? 128)%N then u_escape n +:+ escape ensure_ascii rest
          else if (n <? 224)%N then
            match rest with
            | String c1 rest1 =>
                code_point_escape (N.lor (N.shiftl (N.land n 31) 6) (cont c1))
                +:+ escape ensure_ascii rest1
            | _ => code_point_escape n
            end
          else if (n <? 240)%N then
            match rest with
            | String c1 (String c2 rest2) =>
                code_point_escape
                  (N.lor (N.shiftl (N.land n 15) 12)
                     (N.lor (N.shiftl (cont c1) 6) (cont c2)))
                +:+ escape ensure_ascii rest2
            | _ => code_point_escape n
            end
          else
            match rest with
            | String c1 (String c2 (String c3 rest3)) =>
                code_point_escape
                  (N.lor (N.shiftl (N.land n 7) 18)
                     (N.lor (N.shiftl (cont c1) 12)
                        (N.lor (N.shiftl (cont c2) 6) (cont c3))))
                +:+ escape ensure_ascii rest3
            | _ => code_point_escape n
            end
      end
  end.

Definition str_literal (ensure_ascii : bool) (s : string) : string :=
  String dquote (escape ensure_ascii s) +:+ String dquote "".

Definition scalar (ensure_ascii : bool) (c : cell) : string :=
  match c with
  | CNull => "null"
  | CInt z => str_int z
  | CStr s => str_literal ensure_ascii s
  end.

Definition member (ensure_ascii : bool) (kv : string * cell) : string :=
  nl +:+ spaces 4 +:+ str_literal ensure_ascii kv.1 +:+ ": "
  +:+ scalar ensure_ascii kv.2.

Definition object (ensure_ascii : bool) (r : row) : string :=
  match r with
  | [] => "{}"
  | _ => "{" +:+ join "," (member ensure_ascii <$> r)
         +:+ nl +:+ spaces 2 +:+ "}"
  end.

Definition dumps (ensure_ascii : bool) (rows : list row) : string :=
  match rows with
  | [] => "[]"
  | _ => "[" +:+ join "," ((λ r, nl +:+ spaces 2 +:+ object ensure_ascii r) <$> rows)
         +:+ nl +:+ "]"
  end.

End Json.

(** ** [app/services/data.py]: the generic data service *)

Module DataService.

Record t : Type := mk {
  db : ClickHouseDatabase;
  minio : MinIOClient;
  ambient : Ambient
}.

Definition allowed_char (c : ascii) : bool :=
  isalnum c || Ascii.eqb c "_"%char.

Definition _sanitize_identifier (identifier : string) : string :=
  let sanitized := str_filter allowed_char identifier in
  "`" +:+ sanitized +:+ "`".

(** [condition.values or [condition.value]] *)
Definition values_or_value (condition : FilterCondition.t) : list any :=
  match FilterCondition.values condition with
  | Some (v :: vs) => v :: vs
  | _ => [FilterCondition.value condition]
  end.

Definition _build_condition (condition : FilterCondition.t)
    (param_name : string) (params : gmap string any)
    : string * gmap string any :=
  let field := _sanitize_identifier (FilterCondition.field condition) in
  let value := FilterCondition.value condition in
  let ref := "%(" +:+ param_name +:+ ")s" in
  match FilterCondition.operator condition with
  | EQ => (field +:+ " = " +:+ ref, <[param_name := value]> params)
  | NEQ => (field +:+ " != " +:+ ref, <[param_name := value]> params)
  | GT => (field +:+ " > " +:+ ref, <[param_name := value]> params)
  | GTE => (field +:+ " >= " +:+ ref, <[param_name := value]> params)
  | LT => (field +:+ " < " +:+ ref, <[param_name := value]> params)
  | LTE => (field +:+ " <= " +:+ ref, <[param_name := value]> params)
  | IN =>
      (field +:+ " IN " +:+ ref,
       <[param_name := VList (values_or_value condition)]> params)
  | NOT_IN =>
      (field +:+ " NOT IN " +:+ ref,
       <[param_name := VList (values_or_value condition)]> params)
  | LIKE => (field +:+ " LIKE " +:+ ref, <[param_name := value]> params)
  | ILIKE =>
      ("lower(" +:+ field +:+ ") LIKE lower(" +:+ ref +:+ ")",
       <[param_name := value]> params)
  | BETWEEN =>
      match FilterCondition.values condition with
      | Some (v0 :: v1 :: _) =>
          (field +:+ " BETWEEN %(" +:+ param_name +:+ "_min)s AND %("
             +:+ param_name +:+ "_max)s",
           <[param_name +:+ "_max" := v1]>
             (<[param_name +:+ "_min" := v0]> params))
      | _ => ("", params)
      end
  | IS_NULL => (field +:+ " IS NULL", params)
  | IS_NOT_NULL => (field +:+ " IS NOT NULL", params)
  end.

Definition param_name_of (param_prefix : string) (i : nat) : string :=
  param_prefix +:+ "_" +:+ str_nat i.

(** The loop [for i, condition in enumerate(filters.conditions)] from
    index [i] on, over the clauses and parameters collected so far. *)
Fixpoint build_clauses (param_prefix : string) (i : nat)
    (conditions : list FilterCondition.t)
    (clauses : list string) (params : gmap string any)
    : list string * gmap string any :=
  match conditions with
  | [] => (clauses, params)
  | condition :: rest =>
      let param_name := param_name_of param_prefix i in
      let '(clause, params) := _build_condition condition param_name params in
      let clauses := if truthy clause then clauses ++ [clause] else clauses in
      build_clauses param_prefix (S i) rest clauses params
  end.

Definition logic_separator (logic : string) : string :=
  if String.eqb (upper logic) "AND" then " AND " else " OR ".

Definition _build_filter_clause (filters : option FilterParams.t)
    (param_prefix : string) : string * gmap string any :=
  match filters with
  | None => ("", ∅)
  | Some filters =>
      match FilterParams.conditions filters with
      | [] => ("", ∅)
      | conditions =>
          let '(clauses, params) :=
            build_clauses param_prefix 0 conditions [] ∅ in
          match clauses with
          | [] => ("", ∅)
          | _ =>
              let logic := logic_separator (FilterParams.logic filters) in
              ("(" +:+ join logic clauses +:+ ")", params)
          end
      end
  end.

(** [f"WHERE {where_clause}" if where_clause else ""] *)
Definition where_sql_of (where_clause : string) : string :=
  if truthy where_clause then "WHERE " +:+ where_clause else "".

(** The table of [_get_time_function], keyed by the members of
    [TimeGranularity]; a [str]-valued enum member and its value are the
    same key. *)
Definition time_functions (col : string) : list (string * string) :=
  [ (TimeGranularity_value MINUTE, "toStartOfMinute(" +:+ col +:+ ")");
    (TimeGranularity_value HOUR, "toStartOfHour(" +:+ col +:+ ")");
    (TimeGranularity_value DAY, "toStartOfDay(" +:+ col +:+ ")");
    (TimeGranularity_value WEEK, "toStartOfWeek(" +:+ col +:+ ")");
    (TimeGranularity_value MONTH, "toStartOfMonth(" +:+ col +:+ ")");
    (TimeGranularity_value QUARTER, "toStartOfQuarter(" +:+ col +:+ ")");
    (TimeGranularity_value YEAR, "toStartOfYear(" +:+ col +:+ ")") ].

Definition _get_time_function (granularity : string) (column : string) : string :=
  let col := _sanitize_identifier column in
  table_get (time_functions col) granularity col.

(** [_resolve_table_name].  A stored [table_name] that is not text
    cannot be sanitized by the caller; the [TypeError] of that later
    step is raised here, no statement being sent in between. *)
Definition _resolve_table_name (self : t)
    (data_source_id table_name : option string) : io string :=
  match table_name with
  | Some (String c s) => mret (String c s)
  | _ =>
      match data_source_id with
      | Some id =>
          source ← fetch_one (db self)
            "SELECT table_name, query FROM data_sources WHERE id = %(id)s"
            {[ "id" := VStr id ]};
          match source with
          | Some (kv :: src) =>
              let source := kv :: src in
              match row_get source "table_name" with
              | Some (CStr (String c s)) => mret (String c s)
              | Some (CInt z) =>
                  if truthy_cell (CInt z)
                  then raise (TypeError "'int' object is not iterable")
                  else mret ("(" +:+ default "None" (str_cell <$> row_get source "query") +:+ ")")
              | _ => mret ("(" +:+ default "None" (str_cell <$> row_get source "query") +:+ ")")
              end
          | _ => raise (ValueError "Either data_source_id or table_name must be provided")
          end
      | None => raise (ValueError "Either data_source_id or table_name must be provided")
      end
  end.

Definition _get_column_info (self : t) (table_name : string) : io (list row) :=
  rows ← fetch_all (db self)
    (concat [nl; spaces 12; "SELECT name, type";
             nl; spaces 12; "FROM system.columns";
             nl; spaces 12; "WHERE table = %(table)s";
             nl; spaces 12])
    {[ "table" := VStr table_name ]};
  for_each (λ r : row,
    name ← lift (row_item r "name");
    type ← lift (row_item r "type");
    mret [("name", name); ("type", type)]) rows.

(** [", ".join(self._sanitize_identifier(c) for c in columns)], or ["*"]. *)
Definition select_columns (columns : option (list string)) : string :=
  match columns with
  | Some (c :: cs) => join ", " (_sanitize_identifier <$> (c :: cs))
  | _ => "*"
  end.

Definition order_part (s : SortParams.t) : string :=
  _sanitize_identifier (SortParams.field s) +:+ " "
  +:+ upper (SortOrder_value (SortParams.order s)).

(** [f"ORDER BY {', '.join(order_parts)}"] when [request.sort] is not
    empty. *)
Definition order_sql_of (sort : list SortParams.t) : string :=
  match sort with
  | [] => ""
  | _ => "ORDER BY " +:+ join ", " (order_part <$> sort)
  end.

Definition row_query (columns table_name where_sql order_sql : string) : string :=
  concat [nl; spaces 12; "SELECT "; columns;
          nl; spaces 12; "FROM "; _sanitize_identifier table_name;
          nl; spaces 12; where_sql;
          nl; spaces 12; order_sql;
          nl; spaces 12; "LIMIT %(limit)s OFFSET %(offset)s";
          nl; spaces 8].

Definition count_query (table_name where_sql : string) : string :=
  concat [nl; spaces 12; "SELECT count() as total";
          nl; spaces 12; "FROM "; _sanitize_identifier table_name;
          nl; spaces 12; where_sql;
          nl; spaces 8].

(** The arithmetic of [pages] on the stored total. *)
Definition int_of_cell (c : cell) : outcome Z :=
  match c with
  | CInt z => Returned z
  | _ => Raised (TypeError "unsupported operand type(s) for +")
  end.

Definition floordiv (a b : Z) : outcome Z :=
  if (b =? 0)%Z then Raised ZeroDivisionError else Returned (a `div` b)%Z.

Definition query_data (self : t) (request : DataQueryRequest.t)
    : io DataQueryResponse.t :=
  table_name ← _resolve_table_name self
    (DataQueryRequest.data_source_id request)
    (DataQueryRequest.table_name request);
  let columns := select_columns (DataQueryRequest.columns request) in
  let '(where_clause, filter_params) :=
    _build_filter_clause (DataQueryRequest.filters request) "f" in
  let where_sql := where_sql_of where_clause in
  let order_sql := order_sql_of (DataQueryRequest.sort request) in
  let offset :=
    ((DataQueryRequest.page request - 1) * DataQueryRequest.page_size request)%Z in
  let query := row_query columns table_name where_sql order_sql in
  let params :=
    <["offset" := VInt offset]>
      (<["limit" := VInt (DataQueryRequest.page_size request)]> filter_params) in
  data ← fetch_all (db self) query params;
  count_result ← fetch_one (db self) (count_query table_name where_sql) filter_params;
  total ← match count_result with
          | Some (kv :: r) => lift (row_item (kv :: r) "total")
          | _ => mret (CInt 0)
          end;
  columns_info ← _get_column_info self table_name;
  total ← lift (int_of_cell total);
  pages ← lift (floordiv (total + DataQueryRequest.page_size request - 1)
                         (DataQueryRequest.page_size request));
  mret {| DataQueryResponse.columns := columns_info;
          DataQueryResponse.data := data;
          DataQueryResponse.total := total;
          DataQueryResponse.page := DataQueryRequest.page request;
          DataQueryResponse.page_size := DataQueryRequest.page_size request;
          DataQueryResponse.pages := pages |}.

(** The time-bucket grouping key of [aggregate_data]: present when both
    [time_column] and [time_granularity] are given and truthy. *)
Definition time_bucket_expr (request : AggregationRequest.t) : option string :=
  match AggregationRequest.time_column request,
        AggregationRequest.time_granularity request with
  | Some (String c s), Some g =>
      Some (_get_time_function (TimeGranularity_value g) (String c s))
  | _, _ => None
  end.

(** [agg.alias or f"{agg.function.value}_{agg.column}"] *)
Definition alias_of (agg : ColumnAggregation.t) : string :=
  match ColumnAggregation.alias agg with
  | Some (String c s) => String c s
  | _ => AggregationFunction_value (ColumnAggregation.function agg)
         +:+ "_" +:+ ColumnAggregation.column agg
  end.

Definition aggregation_part (agg : ColumnAggregation.t) : string :=
  let col := _sanitize_identifier (ColumnAggregation.column agg) in
  AggregationFunction_value (ColumnAggregation.function agg)
  +:+ "(" +:+ col +:+ ") as `" +:+ alias_of agg +:+ "`".

(** The three lists [aggregate_data] fills, in the order it appends to
    them: time bucket, plain group-by columns, aggregations. *)
Definition select_parts (request : AggregationRequest.t) : list string :=
  match time_bucket_expr request with
  | Some time_expr => [time_expr +:+ " as time_bucket"]
  | None => []
  end
  ++ (_sanitize_identifier <$> AggregationRequest.group_by request)
  ++ (aggregation_part <$> AggregationRequest.aggregations request).

Definition result_columns (request : AggregationRequest.t) : list string :=
  match time_bucket_expr request with
  | Some _ => ["time_bucket"]
  | None => []
  end
  ++ AggregationRequest.group_by request
  ++ (alias_of <$> AggregationRequest.aggregations request).

Definition group_by_cols (request : AggregationRequest.t) : list string :=
  match time_bucket_expr request with
  | Some _ => ["time_bucket"]
  | None => []
  end
  ++ (_sanitize_identifier <$> AggregationRequest.group_by request).

Definition aggregate_query (request : AggregationRequest.t)
    (table_name where_sql : string) : string :=
  let group_by_sql :=
    match group_by_cols request with
    | [] => ""
    | cols => "GROUP BY " +:+ join ", " cols
    end in
  let order_sql :=
    match AggregationRequest.sort request with
    | s :: sort => "ORDER BY " +:+ join ", " (order_part <$> (s :: sort))
    | [] =>
        match group_by_cols request with
        | first :: _ => "ORDER BY " +:+ first
        | [] => ""
        end
    end in
  concat [nl; spaces 12; "SELECT "; join ", " (select_parts request);
          nl; spaces 12; "FROM "; _sanitize_identifier table_name;
          nl; spaces 12; where_sql;
          nl; spaces 12; group_by_sql;
          nl; spaces 12; order_sql;
          nl; spaces 12; "LIMIT %(limit)s";
          nl; spaces 8].

Definition aggregate_data (self : t) (request : AggregationRequest.t)
    : io AggregationResponse.t :=
  table_name ← _resolve_table_name self
    (AggregationRequest.data_source_id request)
    (AggregationRequest.table_name request);
  let '(where_clause, filter_params) :=
    _build_filter_clause (AggregationRequest.filters request) "f" in
  let where_sql := where_sql_of where_clause in
  let query := aggregate_query request table_name where_sql in
  let params := <["limit" := VInt (AggregationRequest.limit request)]> filter_params in
  data ← fetch_all (db self) query params;
  mret {| AggregationResponse.columns := result_columns request;
          AggregationResponse.data := data;
          AggregationResponse.total_rows := length data |}.

(** [[{"x": row["x"], "y": row["y"]} for row in data]] *)
Definition points_of (data : list row) : io (list Point.t) :=
  for_each (λ r : row,
    x ← lift (row_item r "x");
    y ← lift (row_item r "y");
    mret {| Point.x := x; Point.y := y |}) data.

Definition chart_query (x_expr agg_func y_col table_name where_sql : string) : string :=
  concat [nl; spaces 16; "SELECT "; x_expr; " as x, "; agg_func; "("; y_col; ") as y";
          nl; spaces 16; "FROM "; _sanitize_identifier table_name;
          nl; spaces 16; where_sql;
          nl; spaces 16; "GROUP BY x";
          nl; spaces 16; "ORDER BY x";
          nl; spaces 16; "LIMIT %(limit)s";
          nl; spaces 12].

(** The aggregation of the [i]-th y-column: ["avg"] unless
    [y_aggregations] names one at that index. *)
Definition agg_func_at (y_aggregations : option (list AggregationFunction))
    (i : nat) : string :=
  match y_aggregations with
  | Some aggs =>
      match aggs !! i with
      | Some f => AggregationFunction_value f
      | None => "avg"
      end
  | None => "avg"
  end.

(** The loop [for i, y_column in enumerate(request.y_columns)] from
    index [i] on. *)
Fixpoint chart_series (self : t) (request : ChartDataRequest.t)
    (table_name x_expr where_sql : string) (filter_params : gmap string any)
    (i : nat) (y_columns : list string) : io (list ChartSeries.t) :=
  match y_columns with
  | [] => mret []
  | y_column :: rest =>
      let y_col := _sanitize_identifier y_column in
      let agg_func := agg_func_at (ChartDataRequest.y_aggregations request) i in
      let query := chart_query x_expr agg_func y_col table_name where_sql in
      let params := <["limit" := VInt (ChartDataRequest.limit request)]> filter_params in
      data ← fetch_all (db self) query params;
      points ← points_of data;
      series ← chart_series self request table_name x_expr where_sql
                 filter_params (S i) rest;
      mret ({| ChartSeries.name := y_column; ChartSeries.data := points |} :: series)
  end.

Definition get_chart_data (self : t) (request : ChartDataRequest.t)
    : io ChartDataResponse.t :=
  table_name ← _resolve_table_name self
    (ChartDataRequest.data_source_id request)
    (ChartDataRequest.table_name request);
  let x_col := _sanitize_identifier (ChartDataRequest.x_column request) in
  let '(where_clause, filter_params) :=
    _build_filter_clause (ChartDataRequest.filters request) "f" in
  let where_sql := where_sql_of where_clause in
  let x_expr :=
    match ChartDataRequest.time_granularity request with
    | Some g => _get_time_function (TimeGranularity_value g)
                  (ChartDataRequest.x_column request)
    | None => x_col
    end in
  series ← chart_series self request table_name x_expr where_sql filter_params
             0 (ChartDataRequest.y_columns request);
  mret {| ChartDataResponse.chart_type := ChartDataRequest.chart_type request;
          ChartDataResponse.series := series;
          ChartDataResponse.x_axis_label := Some (ChartDataRequest.x_column request);
          ChartDataResponse.y_axis_label :=
            match ChartDataRequest.y_columns request with
            | [y] => Some y
            | _ => None
            end;
          ChartDataResponse.total_points :=
            sum_list (length ∘ ChartSeries.data <$> series) |}.

Definition _generate_csv (data : list row) : outcome string :=
  match data with
  | [] => Returned ""
  | first :: _ =>
      let fieldnames := row_keys first in
      match Csv.writerows fieldnames data with
      | Returned body => Returned (Csv.record fieldnames +:+ body)
      | Raised e => Raised e
      end
  end.

(** [f"LIMIT {request.limit}" if request.limit else ""] *)
Definition limit_sql_of (limit : option Z) : string :=
  match limit with
  | Some l => if (l =? 0)%Z then "" else "LIMIT " +:+ str_int l
  | None => ""
  end.

Definition export_query (columns table_name where_sql limit_sql : string) : string :=
  concat [nl; spaces 12; "SELECT "; columns;
          nl; spaces 12; "FROM "; _sanitize_identifier table_name;
          nl; spaces 12; where_sql;
          nl; spaces 12; limit_sql;
          nl; spaces 8].

Definition export_data (self : t) (request : ExportRequest.t)
    : io ExportResponse.t :=
  table_name ← _resolve_table_name self
    (ExportRequest.data_source_id request)
    (ExportRequest.table_name request);
  let columns := select_columns (ExportRequest.columns request) in
  let '(where_clause, filter_params) :=
    _build_filter_clause (ExportRequest.filters request) "f" in
  let where_sql := where_sql_of where_clause in
  let limit_sql := limit_sql_of (ExportRequest.limit request) in
  data ← fetch_all (db self)
    (export_query columns table_name where_sql limit_sql) filter_params;
  let file_name :=
    "export_" +:+ String.substring 0 8 (uuid4_hex (ambient self))
    +:+ "_" +:+ utcnow_stamp (ambient self) in
  '(file_content, file_name, content_type) ←
    (if String.eqb (ExportRequest.format request) "json"
     then mret (Json.dumps true data, file_name +:+ ".json", "application/json")
     else
       content ← lift (_generate_csv data);
       mret (content, file_name +:+ ".csv", "text/csv"));
  let object_name := "exports/" +:+ file_name in
  _ ← emit (Upload object_name file_content content_type);
  let expires_hours := 24%Z in
  _ ← emit (Presign object_name expires_hours);
  let url := presigned_url (minio self) object_name expires_hours in
  mret {| ExportResponse.file_url := url;
          ExportResponse.file_name := file_name;
          ExportResponse.file_size := String.length file_content;
          ExportResponse.row_count := length data |}.

End DataService.

(** ** [app/services/sop.py]: the S&OP service *)

Module SopService.

Record t : Type := mk {
  db : ClickHouseDatabase;
  minio : option MinIOClient;
  ambient : Ambient
}.

Definition FACT_TABLE : string := "sop_facts".

Definition COLUMN_LABELS : list (string * string) :=
  [ ("model", "Модель");
    ("priznak", "Признак");
    ("driver", "Драйвер");
    ("finkod_code", "Финкод Код");
    ("finkod_name", "Финкод код_назв");
    ("category_code", "Категория");
    ("category_name", "Категория название");
    ("macroregion_code", "Макрорегион код");
    ("macroregion_name", "Макрорегион название");
    ("territory", "Территория название");
    ("year", "Год");
    ("month", "Месяц");
    ("unit", "ЕИ");
    ("value", "Прогноз") ].

(** [self.COLUMN_LABELS.get(column, column)] *)
Definition label_of (column : string) : string :=
  table_get COLUMN_LABELS column column.

(** One optional list filter of [_build_where_clause]: when the list is
    given and not empty, its condition is appended and the list bound
    under [key]. *)
Definition list_filter {A} (inj : A → any) (condition key : string)
    (vals : option (list A)) (st : list string * gmap string any)
    : list string * gmap string any :=
  match vals with
  | Some (v :: vs) =>
      (st.1 ++ [condition], <[key := VList (inj <$> (v :: vs))]> st.2)
  | _ => st
  end.

Definition group_filter (finkod_groups : option (list string))
    (st : list string * gmap string any) : list string * gmap string any :=
  match finkod_groups with
  | Some (g :: gs) =>
      let group_conditions :=
        (λ g, "startsWith(finkod_code, '" +:+ g +:+ "')") <$> (g :: gs) in
      (st.1 ++ ["(" +:+ join " OR " group_conditions +:+ ")"], st.2)
  | _ => st
  end.

Definition search_condition : string :=
  concat ["(";
          nl; spaces 20; "finkod_name ILIKE %(search)s OR";
          nl; spaces 20; "category_name ILIKE %(search)s OR";
          nl; spaces 20; "macroregion_name ILIKE %(search)s OR";
          nl; spaces 20; "territory ILIKE %(search)s";
          nl; spaces 16; ")"].

Definition search_filter (search : option string)
    (st : list string * gmap string any) : list string * gmap string any :=
  match search with
  | Some (String c s) =>
      let search_pattern := "%" +:+ String c s +:+ "%" in
      (st.1 ++ [search_condition], <["search" := VStr search_pattern]> st.2)
  | _ => st
  end.

(** The conditions and parameters of [_build_where_clause], filter by
    filter in the order of the source. *)
Definition where_parts (filters : SopFilterParams.t)
    : list string * gmap string any :=
  let st := ([], ∅) in
  let st := list_filter VInt "year IN %(years)s" "years"
              (SopFilterParams.years filters) st in
  let st := list_filter VInt "month IN %(months)s" "months"
              (SopFilterParams.months filters) st in
  let st := list_filter VStr "priznak IN %(priznaks)s" "priznaks"
              (SopFilterParams.priznaks filters) st in
  let st := list_filter VStr "driver IN %(drivers)s" "drivers"
              (SopFilterParams.drivers filters) st in
  let st := list_filter VStr "finkod_code IN %(finkod_codes)s" "finkod_codes"
              (SopFilterParams.finkod_codes filters) st in
  let st := group_filter (SopFilterParams.finkod_groups filters) st in
  let st := list_filter VStr "category_code IN %(category_codes)s" "category_codes"
              (SopFilterParams.category_codes filters) st in
  let st := list_filter VStr "territory IN %(territories)s" "territories"
              (SopFilterParams.territories filters) st in
  let st := list_filter VStr "macroregion_code IN %(macroregion_codes)s"
              "macroregion_codes"
              (SopFilterParams.macroregion_codes filters) st in
  let st := list_filter VStr "unit IN %(units)s" "units"
              (SopFilterParams.units filters) st in
  search_filter (SopFilterParams.search filters) st.

Definition _build_where_clause (filters : option SopFilterParams.t)
    : string * gmap string any :=
  match filters with
  | None => ("", ∅)
  | Some filters =>
      match where_parts filters with
      | ([], _) => ("", ∅)
      | (conditions, params) => ("WHERE " +:+ join " AND " conditions, params)
      end
  end.

Definition allowed : list string :=
  COLUMN_LABELS.*1 ++ ["id"; "created_at"; "updated_at"].

Definition _sanitize_column (column : string) : string :=
  if str_in column allowed then "`" +:+ column +:+ "`" else "`id`".

(** The select list of [query_data] and [export_data]. *)
Definition select_columns (columns : option (list string)) : string :=
  match columns with
  | Some (c :: cs) => join ", " (_sanitize_column <$> (c :: cs))
  | _ => join ", " ((λ c, "`" +:+ c +:+ "`") <$> COLUMN_LABELS.*1)
  end.

Definition order_part (sort : SopSortParams.t) : string :=
  let col := _sanitize_column (SopSortParams.field sort) in
  let direction :=
    if String.eqb (lower (SopSortParams.order sort)) "desc" then "DESC" else "ASC" in
  col +:+ " " +:+ direction.

Definition order_by_of (sort : list SopSortParams.t) : string :=
  match order_part <$> sort with
  | [] => "ORDER BY year DESC, month ASC"
  | order_parts => "ORDER BY " +:+ join ", " order_parts
  end.

Definition row_query (columns where_clause order_by : string) : string :=
  concat [nl; spaces 12; "SELECT "; columns;
          nl; spaces 12; "FROM "; FACT_TABLE;
          nl; spaces 12; where_clause;
          nl; spaces 12; order_by;
          nl; spaces 12; "LIMIT %(limit)s OFFSET %(offset)s";
          nl; spaces 8].

Definition count_query (where_clause : string) : string :=
  concat [nl; spaces 12; "SELECT count() as total";
          nl; spaces 12; "FROM "; FACT_TABLE;
          nl; spaces 12; where_clause;
          nl; spaces 8].

Definition query_data (self : t) (request : SopQueryRequest.t)
    : io SopDataResponse.t :=
  let '(where_clause, params) := _build_where_clause (SopQueryRequest.filters request) in
  let columns := select_columns (SopQueryRequest.columns request) in
  let order_by := order_by_of (SopQueryRequest.sort request) in
  let offset :=
    ((SopQueryRequest.page request - 1) * SopQueryRequest.page_size request)%Z in
  let params := <["limit" := VInt (SopQueryRequest.page_size request)]> params in
  let params := <["offset" := VInt offset]> params in
  data ← fetch_all (db self) (row_query columns where_clause order_by) params;
  let count_params := without_keys ["limit"; "offset"] params in
  count_result ← fetch_one (db self) (count_query where_clause) count_params;
  total ← match count_result with
          | Some (kv :: r) => lift (row_item (kv :: r) "total")
          | _ => mret (CInt 0)
          end;
  let column_defs :=
    (λ col, (col, label_of col)) <$>
      match SopQueryRequest.columns request with
      | Some (c :: cs) => c :: cs
      | _ => COLUMN_LABELS.*1
      end in
  total ← lift (DataService.int_of_cell total);
  let page_size := SopQueryRequest.page_size request in
  mret {| SopDataResponse.columns := column_defs;
          SopDataResponse.data := data;
          SopDataResponse.total := total;
          SopDataResponse.page := SopQueryRequest.page request;
          SopDataResponse.page_size := page_size;
          SopDataResponse.pages :=
            if (0 <? page_size)%Z then ((total + page_size - 1) `div` page_size)%Z
            else 0%Z |}.

Definition quarter_expr : string :=
  "toQuarter(toDate(concat(toString(year), '-', toString(month), '-01'))) as quarter".

(** The aggregation expression of one requested function name; an
    unknown name adds nothing. *)
Definition agg_expression (value_col agg : string) : list string :=
  if String.eqb agg "sum" then ["sum(" +:+ value_col +:+ ") as sum_value"]
  else if String.eqb agg "avg" then ["avg(" +:+ value_col +:+ ") as avg_value"]
  else if String.eqb agg "count" then ["count() as count_value"]
  else if String.eqb agg "min" then ["min(" +:+ value_col +:+ ") as min_value"]
  else if String.eqb agg "max" then ["max(" +:+ value_col +:+ ") as max_value"]
  else [].

Definition group_cols (request : SopAggregationRequest.t) : list string :=
  (_sanitize_column <$> SopAggregationRequest.group_by request)
  ++ match SopAggregationRequest.time_granularity request with
     | Some g => if String.eqb g "quarter" then [quarter_expr] else []
     | None => []
     end.

Definition select_parts (request : SopAggregationRequest.t) : list string :=
  let value_col := _sanitize_column (SopAggregationRequest.value_column request) in
  group_cols request
  ++ mbind (agg_expression value_col) (SopAggregationRequest.aggregations request).

Definition aggregate_query (request : SopAggregationRequest.t)
    (where_clause : string) : string :=
  let group_by := SopAggregationRequest.group_by request in
  let group_by_clause :=
    match group_by with
    | [] => ""
    | _ => "GROUP BY " +:+ join ", " group_by
    end in
  concat [nl; spaces 12; "SELECT "; join ", " (select_parts request);
          nl; spaces 12; "FROM "; FACT_TABLE;
          nl; spaces 12; where_clause;
          nl; spaces 12; group_by_clause;
          nl; spaces 12; "ORDER BY "; match group_by with g :: _ => g | [] => "1" end;
          nl; spaces 12; "LIMIT %(limit)s";
          nl; spaces 8].

Definition aggregate_data (self : t) (request : SopAggregationRequest.t)
    : io SopAggregationResponse.t :=
  let '(where_clause, params) :=
    _build_where_clause (SopAggregationRequest.filters request) in
  let params := <["limit" := VInt (SopAggregationRequest.limit request)]> params in
  data ← fetch_all (db self) (aggregate_query request where_clause) params;
  let columns :=
    SopAggregationRequest.group_by request
    ++ ((λ agg, agg +:+ "_value") <$> SopAggregationRequest.aggregations request) in
  mret {| SopAggregationResponse.columns := columns;
          SopAggregationResponse.data := data;
          SopAggregationResponse.total_rows := length data |}.

(** [series_data[series_name].append(point)], the key being created
    with an empty list, at the end of the [dict], when it is new. *)
Fixpoint series_append (series_name : string) (point : Point.t)
    (series_data : list (string * list Point.t)) : list (string * list Point.t) :=
  match series_data with
  | [] => [(series_name, [point])]
  | (name, points) :: rest =>
      if String.eqb name series_name then (name, points ++ [point]) :: rest
      else (name, points) :: series_append series_name point rest
  end.

(** The loop [for row in data] that groups the points by series. *)
Fixpoint group_by_series (data : list row)
    (series_data : list (string * list Point.t))
    : outcome (list (string * list Point.t)) :=
  match data with
  | [] => Returned series_data
  | r :: data =>
      match row_item r "series" with
      | Returned s =>
          let series_name := str_cell s in
          match row_item r "x" with
          | Returned x =>
              match row_item r "y" with
              | Returned y =>
                  group_by_series data
                    (series_append series_name {| Point.x := x; Point.y := y |}
                       series_data)
              | Raised e => Raised e
              end
          | Raised e => Raised e
          end
      | Raised e => Raised e
      end
  end.

Definition series_query (x_col series_col agg_func y_col where_clause
    x_axis series_by : string) : string :=
  concat [nl; spaces 16; "SELECT ";
          nl; spaces 20; x_col; " as x,";
          nl; spaces 20; series_col; " as series,";
          nl; spaces 20; agg_func; "("; y_col; ") as y";
          nl; spaces 16; "FROM "; FACT_TABLE;
          nl; spaces 16; where_clause;
          nl; spaces 16; "GROUP BY "; x_axis; ", "; series_by;
          nl; spaces 16; "ORDER BY "; x_axis; ", "; series_by;
          nl; spaces 16; "LIMIT %(limit)s";
          nl; spaces 12].

Definition single_query (x_col agg_func y_col where_clause x_axis : string) : string :=
  concat [nl; spaces 16; "SELECT ";
          nl; spaces 20; x_col; " as x,";
          nl; spaces 20; agg_func; "("; y_col; ") as y";
          nl; spaces 16; "FROM "; FACT_TABLE;
          nl; spaces 16; where_clause;
          nl; spaces 16; "GROUP BY "; x_axis;
          nl; spaces 16; "ORDER BY "; x_axis;
          nl; spaces 16; "LIMIT %(limit)s";
          nl; spaces 12].

Definition get_chart_data (self : t) (request : SopChartRequest.t)
    : io SopChartResponse.t :=
  let '(where_clause, params) := _build_where_clause (SopChartRequest.filters request) in
  let params := <["limit" := VInt (SopChartRequest.limit request)]> params in
  let x_axis := SopChartRequest.x_axis request in
  let y_axis := SopChartRequest.y_axis request in
  let x_col := _sanitize_column x_axis in
  let y_col := _sanitize_column y_axis in
  let agg_func :=
    if str_in (SopChartRequest.aggregation request) ["sum"; "avg"; "count"; "min"; "max"]
    then SopChartRequest.aggregation request else "sum" in
  series ←
    match SopChartRequest.series_by request with
    | Some (String c s) =>
        let series_by := String c s in
        let series_col := _sanitize_column series_by in
        data ← fetch_all (db self)
          (series_query x_col series_col agg_func y_col where_clause x_axis series_by)
          params;
        series_data ← lift (group_by_series data []);
        mret ((λ '(name, points),
                 {| SopChartSeries.name := name; SopChartSeries.data := points |})
              <$> series_data)
    | _ =>
        data ← fetch_all (db self)
          (single_query x_col agg_func y_col where_clause x_axis) params;
        points ← DataService.points_of data;
        mret [ {| SopChartSeries.name := label_of y_axis;
                  SopChartSeries.data := points |} ]
    end;
  mret {| SopChartResponse.chart_type := SopChartRequest.chart_type request;
          SopChartResponse.x_axis_label := label_of x_axis;
          SopChartResponse.y_axis_label := label_of y_axis;
          SopChartResponse.series := series;
          SopChartResponse.total_points :=
            sum_list (length ∘ SopChartSeries.data <$> series) |}.

(** [_generate_csv]: the header record carries the display labels. *)
Definition _generate_csv (data : list row) : outcome string :=
  match data with
  | [] => Returned ""
  | first :: _ =>
      let fieldnames := row_keys first in
      let headers := label_of <$> fieldnames in
      match Csv.writerows fieldnames data with
      | Returned body => Returned (Csv.record headers +:+ body)
      | Raised e => Raised e
      end
  end.

Definition export_query (columns where_clause limit_clause : string) : string :=
  concat [nl; spaces 12; "SELECT "; columns;
          nl; spaces 12; "FROM "; FACT_TABLE;
          nl; spaces 12; where_clause;
          nl; spaces 12; "ORDER BY year DESC, month ASC";
          nl; spaces 12; limit_clause;
          nl; spaces 8].

Definition export_data (self : t) (request : SopExportRequest.t)
    : io SopExportResponse.t :=
  match minio self with
  | None => raise (ValueError "MinIO client not configured for export")
  | Some minio =>
      let '(where_clause, params) :=
        _build_where_clause (SopExportRequest.filters request) in
      let columns := select_columns (SopExportRequest.columns request) in
      let limit_clause := DataService.limit_sql_of (SopExportRequest.limit request) in
      data ← fetch_all (db self) (export_query columns where_clause limit_clause) params;
      let timestamp := utcnow_stamp (ambient self) in
      '(file_content, file_name, content_type) ←
        (if String.eqb (SopExportRequest.format request) "json"
         then mret (Json.dumps false data,
                    "sop_export_" +:+ timestamp +:+ ".json", "application/json")
         else
           content ← lift (_generate_csv data);
           mret (content, "sop_export_" +:+ timestamp +:+ ".csv", "text/csv"));
      let object_name := "exports/sop/" +:+ file_name in
      _ ← emit (Upload object_name file_content content_type);
      let expires_hours := 24%Z in
      _ ← emit (Presign object_name expires_hours);
      let url := presigned_url minio object_name expires_hours in
      mret {| SopExportResponse.file_url := url;
              SopExportResponse.file_name := file_name;
              SopExportResponse.file_size := String.length file_content;
              SopExportResponse.row_count := length data |}
  end.













End SopService.

(** ** [app/api/v1/endpoints/sop.py]: the summary views *)

Module SopEndpoints.

(** [[year] if year else None] and [[text] if text else None] *)
Definition year_list (year : option Z) : option (list Z) :=
  match year with
  | Some y => if (y =? 0)%Z then None else Some [y]
  | None => None
  end.

Definition text_list (text : option string) : option (list string) :=
  match text with
  | Some (String c s) => Some [String c s]
  | _ => None
  end.

(** [SopAggregationRequest(filters=..., group_by=..., aggregations=["sum"],
    value_column="value")], the other fields at their defaults. *)
Definition summary_request (filters : SopFilterParams.t) (group_by : list string)
    : SopAggregationRequest.t :=
  SopAggregationRequest.mk (Some filters) group_by ["sum"] "value" None 1000.

Definition get_summary_by_territory (year : option Z) (unit : string)
    (service : SopService.t) : io SopAggregationResponse.t :=
  let filters :=
    SopFilterParams.mk (year_list year) None None None None None None None None
      (Some [unit]) None in
  SopService.aggregate_data service (summary_request filters ["territory"]).

Definition get_summary_by_month (year : option Z) (territory : option string)
    (unit : string) (service : SopService.t) : io SopAggregationResponse.t :=
  let filters :=
    SopFilterParams.mk (year_list year) None None None None None None
      (text_list territory) None (Some [unit]) None in
  SopService.aggregate_data service (summary_request filters ["year"; "month"]).

Definition get_summary_by_category (year : option Z) (territory : option string)
    (unit : string) (service : SopService.t) : io SopAggregationResponse.t :=
  let filters :=
    SopFilterParams.mk (year_list year) None None None None None None
      (text_list territory) None (Some [unit]) None in
  SopService.aggregate_data service
    (summary_request filters ["category_code"; "category_name"]).

Definition get_summary_by_driver (year : option Z) (territory priznak : option string)
    (unit : string) (service : SopService.t) : io SopAggregationResponse.t :=
  let filters :=
    SopFilterParams.mk (year_list year) None (text_list priznak) None None None None
      (text_list territory) None (Some [unit]) None in
  SopService.aggregate_data service (summary_request filters ["driver"]).

End SopEndpoints.

(** ** Vocabulary of the specification *)

(** A condition is well formed when its operator has what it requires:
    [BETWEEN] at least two [values], [IS_NULL] and [IS_NOT_NULL]
    nothing, [IN] and [NOT_IN] a list or a single value, every other
    operator a value. *)
Definition well_formed_condition (c : FilterCondition.t) : bool :=
  let has_value :=
    match FilterCondition.value c with VNone => false | _ => true end in
  match FilterCondition.operator c with
  | BETWEEN =>
      match FilterCondition.values c with
      | Some (_ :: _ :: _) => true
      | _ => false
      end
  | IS_NULL | IS_NOT_NULL => true
  | IN | NOT_IN => truthy_list (FilterCondition.values c) || has_value
  | _ => has_value
  end.

(** A filter set is well formed when its logic is [AND] or [OR], in any
    case, and all its conditions are well formed. *)
Definition well_formed (filters : FilterParams.t) : bool :=
  (String.eqb (upper (FilterParams.logic filters)) "AND"
   || String.eqb (upper (FilterParams.logic filters)) "OR")
  && forallb well_formed_condition (FilterParams.conditions filters).

(** The number of named parameters a clause requires. *)
Definition entries_required (c : FilterCondition.t) : nat :=
  match FilterCondition.operator c with
  | BETWEEN => 2
  | IS_NULL | IS_NOT_NULL => 0
  | _ => 1
  end.

(** The clause of a condition; it does not depend on the parameters
    collected before it. *)
Definition clause_of (c : FilterCondition.t) (param_name : string) : string :=
  (DataService._build_condition c param_name ∅).1.

(** The named parameters a condition binds, in the order it binds
    them. *)
Definition bindings (c : FilterCondition.t) (param_name : string)
    : list (string * any) :=
  match FilterCondition.operator c with
  | BETWEEN =>
      match FilterCondition.values c with
      | Some (v0 :: v1 :: _) =>
          [(param_name +:+ "_min", v0); (param_name +:+ "_max", v1)]
      | _ => []
      end
  | IS_NULL | IS_NOT_NULL => []
  | IN | NOT_IN => [(param_name, VList (DataService.values_or_value c))]
  | _ => [(param_name, FilterCondition.value c)]
  end.

(** [params[k] = v] for each binding of a list, in order. *)
Definition bind_all (l : list (string * any)) (params : gmap string any)
    : gmap string any :=
  foldl (λ m kv, <[kv.1 := kv.2]> m) params l.

(** The clauses and the bindings of a list of conditions numbered from
    [i] on. *)
Definition clauses_from (param_prefix : string) (i : nat)
    (conditions : list FilterCondition.t) : list string :=
  imap (λ j c, clause_of c (DataService.param_name_of param_prefix (i + j)))
    conditions.

Definition bindings_from (param_prefix : string) (i : nat)
    (conditions : list FilterCondition.t) : list (string * any) :=
  mjoin (imap (λ j c, bindings c (DataService.param_name_of param_prefix (i + j)))
           conditions).

(** A suffix that is empty or starts outside the digits. *)
Definition no_digit_first (s : string) : Prop :=
  match s with
  | EmptyString => True
  | String c _ => isdigit c = false
  end.

(** What follows the index in the name of a parameter. *)
Definition suffixes : list string := [""; "_min"; "_max"].

(** A parameter name that the filters collected so far have not bound. *)
Definition unbound (k : string) (st : list string * gmap string any) : Prop :=
  st.2 !! k = None.

(** A [BETWEEN] condition whose [values] are absent or fewer than two. *)
Definition between_insufficient (c : FilterCondition.t) : bool :=
  match FilterCondition.operator c with
  | BETWEEN =>
      match FilterCondition.values c with
      | Some (_ :: _ :: _) => false
      | _ => true
      end
  | _ => false
  end.



(** The discriminator of a chart row, as the series is named: [str] of
    its [series] value. *)
Definition discriminator (r : row) : string :=
  default "" (str_cell <$> row_get r "series").

Definition point_of (r : row) : Point.t :=
  {| Point.x := default CNull (row_get r "x");
     Point.y := default CNull (row_get r "y") |}.

(** A row of a chart query carries the columns the query names. *)
Definition has_keys (keys : list string) (r : row) : bool :=
  forallb (λ k, bool_decide (is_Some (row_get r k))) keys.

(** The points collected under a series name so far. *)
Fixpoint series_lookup (series_name : string)
    (series_data : list (string * list Point.t)) : option (list Point.t) :=
  match series_data with
  | [] => None
  | (name, points) :: rest =>
      if String.eqb name series_name then Some points
      else series_lookup series_name rest
  end.


(** The grouping loop on rows that carry their three columns. *)
Definition group_rows (data : list row)
    (series_data : list (string * list Point.t)) : list (string * list Point.t) :=
  foldl (λ acc r, SopService.series_append (discriminator r) (point_of r) acc)
    series_data data.



(** The statement an export request sends, once its table is known. *)
Definition export_statement (request : ExportRequest.t) (table : string)
    : string * gmap string any :=
  let translated :=
    DataService._build_filter_clause (ExportRequest.filters request) "f" in
  (DataService.export_query
     (DataService.select_columns (ExportRequest.columns request)) table
     (DataService.where_sql_of translated.1)
     (DataService.limit_sql_of (ExportRequest.limit request)),
   translated.2).

Definition sop_export_statement (request : SopExportRequest.t)
    : string * gmap string any :=
  let translated := SopService._build_where_clause (SopExportRequest.filters request) in
  (SopService.export_query
     (SopService.select_columns (SopExportRequest.columns request))
     translated.1
     (DataService.limit_sql_of (SopExportRequest.limit request)),
   translated.2).

(** ** Example data *)

Module Examples.

Definition empty_db : ClickHouseDatabase :=
  {| client_query := λ _ _, [] |}.

Definition storage : MinIOClient :=
  {| presigned_url := λ object_name _, "https://storage/" +:+ object_name |}.

Definition ambient : Ambient :=
  {| uuid4_hex := "0123456789abcdef0123456789abcdef";
     utcnow_stamp := "20240101_120000" |}.

Definition data_service : DataService.t :=
  DataService.mk empty_db storage ambient.

Definition sop_service : SopService.t :=
  SopService.mk empty_db (Some storage) ambient.

(** A store that answers every statement with two chart rows per
    series value. *)
Definition chart_rows : list row :=
  [ [("x", CInt 1); ("series", CStr "North"); ("y", CInt 10)];
    [("x", CInt 1); ("series", CStr "South"); ("y", CInt 7)];
    [("x", CInt 2); ("series", CStr "North"); ("y", CInt 5)] ].

Definition chart_db : ClickHouseDatabase :=
  {| client_query := λ _ _, chart_rows |}.


Definition chart_sop_service : SopService.t :=
  SopService.mk chart_db (Some storage) ambient.

Definition year_eq : FilterCondition.t :=
  FilterCondition.mk "year" EQ (VInt 2024) None.

Definition territory_in : FilterCondition.t :=
  FilterCondition.mk "territory" IN VNone (Some [VStr "North"; VStr "South"]).

Definition value_between : FilterCondition.t :=
  FilterCondition.mk "value" BETWEEN VNone (Some [VInt 1; VInt 9]).

Definition value_between_one : FilterCondition.t :=
  FilterCondition.mk "value" BETWEEN VNone (Some [VInt 1]).

Definition unit_is_null : FilterCondition.t :=
  FilterCondition.mk "unit" IS_NULL VNone None.

Definition filters : FilterParams.t :=
  FilterParams.mk [year_eq; territory_in; value_between; unit_is_null] "AND".

Definition no_conditions : FilterParams.t := FilterParams.mk [] "AND".



Definition between_one_request : DataQueryRequest.t :=
  DataQueryRequest.mk None (Some "facts") None
    (Some (FilterParams.mk [value_between_one] "AND")) [] 1 50.





Definition sop_filters : SopFilterParams.t :=
  SopFilterParams.mk (Some [2024%Z]) None None None None (Some ["A"])
    None (Some ["North"]) None None (Some "milk").


Definition sop_series_request : SopChartRequest.t :=
  SopChartRequest.mk None "line" "month" "value" (Some "territory") "sum" 100.

Definition sop_single_request : SopChartRequest.t :=
  SopChartRequest.mk None "line" "month" "value" None "sum" 100.

Definition export_csv_request : ExportRequest.t :=
  ExportRequest.mk None (Some "facts") "csv" (Some ["year"]) None None.

Definition export_json_request : ExportRequest.t :=
  ExportRequest.mk None (Some "facts") "json" (Some ["year"]) None None.

Definition sop_export_csv_request : SopExportRequest.t :=
  SopExportRequest.mk None (Some ["year"]) "csv" None.

Definition sop_export_json_request : SopExportRequest.t :=
  SopExportRequest.mk None (Some ["year"]) "json" None.

End Examples.


(** A computation sends [evs]: when it returns, it has added exactly
    [evs] to the trace, and when it raises, a prefix of them. *)
Definition sends {A} (m : io A) (evs : list event) : Prop :=
  ∀ tr,
    match m tr with
    | (Returned _, tr') => tr' = tr ++ evs
    | (Raised _, tr') => ∃ sent, tr' = tr ++ sent ∧ sent `prefix_of` evs
    end.

(** The distinct elements of a list, each at its first occurrence. *)
Definition first_occurrences (l : list string) : list string :=
  foldl (λ acc x, if bool_decide (x ∈ acc) then acc else acc ++ [x]) [] l.

(** The statement [_resolve_table_name] looks a data source up with. *)
Definition source_lookup (id : string) : event :=
  Query "SELECT table_name, query FROM data_sources WHERE id = %(id)s"
    {[ "id" := VStr id ]}.

Definition missing_source : exn :=
  ValueError "Either data_source_id or table_name must be provided".

(** Two conditions of the same shape: the same field and operator, and
    both or neither a [BETWEEN] with fewer than two values.  Their
    values are free. *)
Definition same_shape (c c' : FilterCondition.t) : Prop :=
  FilterCondition.field c = FilterCondition.field c'
  ∧ FilterCondition.operator c = FilterCondition.operator c'
  ∧ between_insufficient c = between_insufficient c'.

(** The parameters a condition binds when it is not skipped. *)
Definition entries_bound (c : FilterCondition.t) : nat :=
  if between_insufficient c then 0 else entries_required c.

(** A list filter of the S&OP service counts when it is given and not
    empty. *)
Definition present {A} (vals : option (list A)) : nat :=
  if truthy_list vals then 1 else 0.

(** The filters of the S&OP service that bind a parameter. *)
Definition bound_filters (filters : SopFilterParams.t) : nat :=
  present (SopFilterParams.years filters)
  + present (SopFilterParams.months filters)
  + present (SopFilterParams.priznaks filters)
  + present (SopFilterParams.drivers filters)
  + present (SopFilterParams.finkod_codes filters)
  + present (SopFilterParams.category_codes filters)
  + present (SopFilterParams.territories filters)
  + present (SopFilterParams.macroregion_codes filters)
  + present (SopFilterParams.units filters)
  + (if truthy_opt (SopFilterParams.search filters) then 1 else 0).

(** The state of [_build_where_clause] after some filters: [n]
    conditions, [m] parameters, all of them named in [used]. *)
Definition counted (n m : nat) (used : list string)
    (st : list string * gmap string any) : Prop :=
  length st.1 = n ∧ size st.2 = m ∧ ∀ k, k ∉ used → st.2 !! k = None.

(** The aggregation names the S&OP service has an expression for. *)
Definition known_aggregation (agg : string) : bool :=
  str_in agg ["sum"; "avg"; "count"; "min"; "max"].

(** The statement of a summary view. *)
Definition summary_query (select group_by order_by where_clause : string) : string :=
  concat [nl; spaces 12; "SELECT "; select;
          nl; spaces 12; "FROM sop_facts";
          nl; spaces 12; where_clause;
          nl; spaces 12; "GROUP BY "; group_by;
          nl; spaces 12; "ORDER BY "; order_by;
          nl; spaces 12; "LIMIT %(limit)s";
          nl; spaces 8].

Definition opt_condition {A} (condition : string) (vals : option (list A))
    : list string :=
  match vals with Some _ => [condition] | None => [] end.

Definition opt_bind {A} (inj : A → any) (key : string) (vals : option (list A))
    (params : gmap string any) : gmap string any :=
  match vals with
  | Some l => <[key := VList (inj <$> l)]> params
  | None => params
  end.

(** The where clause and the parameters of a summary view with the
    given optional filters; the unit is always filtered. *)
Definition summary_where (years : option (list Z))
    (priznaks territories : option (list string)) : string :=
  "WHERE " +:+ join " AND "
    (opt_condition "year IN %(years)s" years
     ++ opt_condition "priznak IN %(priznaks)s" priznaks
     ++ opt_condition "territory IN %(territories)s" territories
     ++ ["unit IN %(units)s"]).

Definition summary_params (years : option (list Z))
    (priznaks territories : option (list string)) (unit : string)
    : gmap string any :=
  <["limit" := VInt 1000]>
    (<["units" := VList [VStr unit]]>
       (opt_bind VStr "territories" territories
          (opt_bind VStr "priznaks" priznaks
             (opt_bind VInt "years" years ∅)))).



(** The count statement answers [t]: its first row holds [t] under
    [total], or it has no first row to read and [t] is 0. *)
Definition counted_total (rows : list row) (t : Z) : Prop :=
  match rows with
  | (kv :: r) :: _ => row_get (kv :: r) "total" = Some (CInt t)
  | _ => t = 0%Z
  end.

(** The statement [_get_column_info] describes a table with. *)
Definition column_info_statement (table : string) : event :=
  Query (concat [nl; spaces 12; "SELECT name, type";
                 nl; spaces 12; "FROM system.columns";
                 nl; spaces 12; "WHERE table = %(table)s";
                 nl; spaces 12])
        {[ "table" := VStr table ]}.

Definition column_rows (db : ClickHouseDatabase) (table : string) : list row :=
  match column_info_statement table with
  | Query q p => client_query db q p
  | _ => []
  end.

(** The description of one column, as [_get_column_info] answers it. *)
Definition column_of (r : row) : row :=
  [("name", default CNull (row_get r "name"));
   ("type", default CNull (row_get r "type"))].

(** A row whose keys are all among the field names of the writer. *)
Definition within (fieldnames : list string) (r : row) : bool :=
  forallb (λ k, str_in k fieldnames) (row_keys r).

(** The record of one row under the field names of the writer: the
    value of each field name, the empty field where the row has none. *)
Definition csv_line (fieldnames : list string) (r : row) : string :=
  Csv.record ((λ key, match row_get r key with
                      | Some c => Csv.field_text c
                      | None => ""
                      end) <$> fieldnames).

(** ** More example data *)

Module MoreExamples.




(** A store that answers every statement with one row that counts 120
    rows and describes one column. *)
Definition counting_db : ClickHouseDatabase :=
  {| client_query := λ _ _,
       [ [("total", CInt 120); ("name", CStr "year"); ("type", CStr "UInt16")] ] |}.

Definition counting_service : DataService.t :=
  DataService.mk counting_db Examples.storage Examples.ambient.

Definition counting_sop_service : SopService.t :=
  SopService.mk counting_db (Some Examples.storage) Examples.ambient.


Definition sop_third_page : SopQueryRequest.t :=
  SopQueryRequest.mk None [] 3 50 None.

Definition counting_export : ExportRequest.t :=
  ExportRequest.mk None (Some "facts") "csv" None None None.

(** Request objects with a page size of 0. *)
Definition empty_page : DataQueryRequest.t :=
  DataQueryRequest.mk None (Some "facts") None None [] 1 0.

Definition sop_empty_page : SopQueryRequest.t :=
  SopQueryRequest.mk None [] 1 0 None.

End MoreExamples.

(** ** Strings *)

Section strings.

Lemma str_forall_filter (p : ascii → bool) (s : string) :
  str_forall p (str_filter p s) = true.
Proof.
  induction s as [|c s IH]; simpl; [done|].
  destruct (p c) eqn:Hc; simpl; [by rewrite Hc|done].
Qed.

Lemma str_filter_id (p : ascii → bool) (s : string) :
  str_forall p s = true → str_filter p s = s.
Proof.
  induction s as [|c s IH]; simpl; [done|].
  intros [Hc Hs]%andb_prop. rewrite Hc. by rewrite IH.
Qed.



Lemma app_nil_r_str (s : string) : s +:+ "" = s.
Proof. induction s as [|c s IH]; [done|]. unfold String.app in *. simpl. by rewrite IH. Qed.

Lemma app_assoc_str (a b c : string) : (a +:+ b) +:+ c = a +:+ b +:+ c.
Proof. induction a as [|x a IH]; [done|]. unfold String.app in *. simpl. by rewrite IH. Qed.

Lemma app_cons_str (x : ascii) (a b : string) : String x a +:+ b = String x (a +:+ b).
Proof. done. Qed.

End strings.

(** ** Running a computation *)

Section traces.









(** The equations of the monad on a given trace. *)
Lemma bind_ret {A B} (a : A) (f : A → io B) tr : (mret a ≫= f) tr = f a tr.
Proof. done. Qed.

Lemma bind_returned {A B} (m : io A) (f : A → io B) tr a tr' :
  m tr = (Returned a, tr') → (m ≫= f) tr = f a tr'.
Proof. intros H. unfold mbind, io_bind. by rewrite H. Qed.

Lemma bind_lift_returned {A B} (a : A) (f : A → io B) tr :
  (lift (Returned a) ≫= f) tr = f a tr.
Proof. done. Qed.

Lemma bind_emit {B} (ev : event) (f : unit → io B) tr :
  (emit ev ≫= f) tr = f () (tr ++ [ev]).
Proof. done. Qed.

Lemma bind_fetch_all {B} db q p (f : list row → io B) tr :
  (fetch_all db q p ≫= f) tr = f (client_query db q p) (tr ++ [Query q p]).
Proof. done. Qed.

Lemma bind_fetch_one {B} db q p (f : option row → io B) tr :
  (fetch_one db q p ≫= f) tr
  = f (match client_query db q p with r :: _ => Some r | [] => None end)
      (tr ++ [Query q p]).
Proof. done. Qed.

Lemma bind_assoc {A B C} (m : io A) (f : A → io B) (g : B → io C) tr :
  ((m ≫= f) ≫= g) tr = (m ≫= (λ a, f a ≫= g)) tr.
Proof.
  unfold mbind, io_bind. by destruct (m tr) as [[a|e] tr'].
Qed.


End traces.



Section service_traces.





End service_traces.
(** ** The identifier sanitizer *)



(** ** Skipped conditions *)

Section skipped.

Lemma build_condition_between_insufficient c param_name params :
  between_insufficient c = true →
  DataService._build_condition c param_name params = ("", params).
Proof.
  unfold between_insufficient, DataService._build_condition.
  destruct (FilterCondition.operator c); try done.
  by destruct (FilterCondition.values c) as [[|v0 [|v1 vs]]|].
Qed.

End skipped.

(** C3, as amended.  A [BETWEEN] condition whose [values] are absent or
    fewer than two produces no clause and binds no parameter: the
    condition is skipped, the translation goes on with the conditions
    after it, and a filter set holding only such a condition translates
    to no filter at all.  The translation does not fail. *)
Theorem between_insufficient_is_skipped (c : FilterCondition.t)
    (param_prefix logic : string) (i : nat) (rest : list FilterCondition.t)
    (clauses : list string) (params : gmap string any) :
  between_insufficient c = true →
  DataService._build_condition c (DataService.param_name_of param_prefix i) params
    = ("", params)
  ∧ DataService.build_clauses param_prefix i (c :: rest) clauses params
    = DataService.build_clauses param_prefix (S i) rest clauses params
  ∧ DataService._build_filter_clause
      (Some (FilterParams.mk [c] logic)) param_prefix = ("", ∅).
Proof.
  intros H. split_and!.
  - by apply build_condition_between_insufficient.
  - cbn [DataService.build_clauses].
    by rewrite build_condition_between_insufficient.
  - unfold DataService._build_filter_clause.
    cbn [FilterParams.conditions DataService.build_clauses].
    by rewrite build_condition_between_insufficient.
Qed.

Lemma between_insufficient_is_skipped_witness :
  between_insufficient Examples.value_between_one = true
  ∧ DataService._build_filter_clause
      (Some (FilterParams.mk [Examples.value_between_one] "AND")) "f" = ("", ∅).
Proof.
  split; [reflexivity|].
  apply (between_insufficient_is_skipped Examples.value_between_one "f" "AND"
           0 [] [] ∅).
  reflexivity.
Defined.

(** C3 as stated fails: a [BETWEEN] condition with one value raises
    nothing.  Its translation is the empty clause, and the request
    carrying it sends its row query, without a [WHERE], to the store. *)
Lemma between_one_value_not_rejected :
  between_insufficient Examples.value_between_one = true
  ∧ DataService._build_condition Examples.value_between_one "f_0" ∅ = ("", ∅)
  ∧ is_raised (run (DataService.query_data Examples.data_service
                      Examples.between_one_request)).1 = false
  ∧ head (run (DataService.query_data Examples.data_service
                 Examples.between_one_request)).2
    = Some (Query (DataService.row_query "*" "facts" "" "")
              (<["offset" := VInt 0]> {[ "limit" := VInt 50 ]})).
Proof. by vm_compute. Qed.

(** ** Time bucketing *)

Section time_bucketing.


End time_bucketing.



(** ** The column sanitizer of the S&OP service *)


(** ** Parameter names *)

Section parameter_names.

Lemma pretty_N_char_digit (n : N) : isdigit (pretty_N_char n) = true.
Proof. unfold pretty_N_char. by repeat case_match. Qed.

Lemma pretty_N_go_digits (x : N) (s : string) :
  str_forall isdigit s = true → str_forall isdigit (pretty_N_go x s) = true.
Proof.
  revert s. induction (N.lt_wf_0 x) as [x _ IH]. intros s Hs.
  destruct (decide (x = 0)%N) as [->|Hx]; [by rewrite pretty_N_go_0|].
  rewrite pretty_N_go_step by lia. apply IH.
  - apply N.div_lt; lia.
  - simpl. by rewrite pretty_N_char_digit, Hs.
Qed.

Lemma str_nat_digits (i : nat) : str_forall isdigit (str_nat i) = true.
Proof.
  unfold str_nat, pretty, pretty_nat, pretty, pretty_N.
  case_decide; [done|]. by apply pretty_N_go_digits.
Qed.

Lemma digits_split (a b s s' : string) :
  str_forall isdigit a = true → str_forall isdigit b = true →
  no_digit_first s → no_digit_first s' →
  a +:+ s = b +:+ s' → a = b ∧ s = s'.
Proof.
  revert b. induction a as [|x a IH]; intros [|y b] Ha Hb Hs Hs' H.
  - done.
  - change ("" +:+ s) with s in H. rewrite app_cons_str in H. subst s.
    simpl in Hs, Hb. apply andb_prop in Hb as [Hy _]. congruence.
  - change ("" +:+ s') with s' in H. rewrite app_cons_str in H. subst s'.
    simpl in Hs', Ha. apply andb_prop in Ha as [Hx _]. congruence.
  - rewrite !app_cons_str in H. injection H as -> H.
    simpl in Ha, Hb. apply andb_prop in Ha as [_ Ha]. apply andb_prop in Hb as [_ Hb].
    destruct (IH b Ha Hb Hs Hs' H) as [-> ->]. done.
Qed.

Lemma param_name_inj (param_prefix : string) (i j : nat) (s s' : string) :
  s ∈ suffixes → s' ∈ suffixes →
  DataService.param_name_of param_prefix i +:+ s
  = DataService.param_name_of param_prefix j +:+ s' →
  i = j ∧ s = s'.
Proof.
  intros Hs Hs' H. unfold DataService.param_name_of in H.
  rewrite !app_assoc_str in H.
  apply String.app_inj in H. apply (String.app_inj "_") in H.
  assert (∀ x, x ∈ suffixes → no_digit_first x) as Hnd.
  { intros x Hx. unfold suffixes in Hx.
    repeat (apply elem_of_cons in Hx as [-> | Hx]; [done|]).
    by apply elem_of_nil in Hx. }
  apply digits_split in H as [H ->]; auto using str_nat_digits.
  split; [|done]. by apply (inj pretty) in H.
Qed.

End parameter_names.
(** ** The filter translator *)

Section filter_translator.

Lemma bind_all_app (l1 l2 : list (string * any)) (params : gmap string any) :
  bind_all (l1 ++ l2) params = bind_all l2 (bind_all l1 params).
Proof. apply foldl_app. Qed.

Lemma bind_all_lookup (l : list (string * any)) :
  NoDup l.*1 → ∀ k v, bind_all l ∅ !! k = Some v ↔ (k, v) ∈ l.
Proof.
  induction l as [|[k0 v0] l IH] using rev_ind; intros Hnd k v.
  - simpl. rewrite lookup_empty, elem_of_nil. naive_solver.
  - rewrite fmap_app in Hnd. apply NoDup_app in Hnd as (Hl & Hfresh & _).
    rewrite bind_all_app. cbn [bind_all foldl fst snd].
    rewrite lookup_insert_Some, elem_of_app, list_elem_of_singleton.
    fold (bind_all l ∅). rewrite (IH Hl). split.
    + intros [[-> ->]|[_ H]]; auto.
    + intros [H|[= -> ->]]; [|by left]. right. split; [|done].
      intros ->. apply (Hfresh k); [|simpl; left].
      apply list_elem_of_fmap. by exists (k, v).
Qed.

Lemma bind_all_size (l : list (string * any)) :
  NoDup l.*1 → size (bind_all l ∅) = length l.
Proof.
  induction l as [|[k0 v0] l IH] using rev_ind; intros Hnd; [done|].
  pose proof Hnd as Hnd'.
  rewrite fmap_app in Hnd. apply NoDup_app in Hnd as (Hl & Hfresh & _).
  rewrite bind_all_app, length_app. cbn [bind_all foldl fst snd length].
  fold (bind_all l ∅). rewrite map_size_insert_None, (IH Hl); [lia|].
  destruct (bind_all l ∅ !! k0) as [v|] eqn:E; [|done].
  apply bind_all_lookup in E; [|done]. exfalso.
  apply (Hfresh k0); [|simpl; left].
  apply list_elem_of_fmap. by exists (k0, v).
Qed.

Lemma build_condition_eq c param_name params :
  DataService._build_condition c param_name params
  = (clause_of c param_name, bind_all (bindings c param_name) params).
Proof.
  unfold clause_of, bindings, DataService._build_condition.
  destruct (FilterCondition.operator c); try done.
  by destruct (FilterCondition.values c) as [[|v0 [|v1 vs]]|].
Qed.

Lemma clauses_from_cons param_prefix i c cs :
  clauses_from param_prefix i (c :: cs)
  = clause_of c (DataService.param_name_of param_prefix i)
    :: clauses_from param_prefix (S i) cs.
Proof.
  unfold clauses_from. rewrite imap_cons, Nat.add_0_r. f_equal.
  apply imap_ext. intros j x _. simpl. by rewrite Nat.add_succ_r.
Qed.

Lemma bindings_from_cons param_prefix i c cs :
  bindings_from param_prefix i (c :: cs)
  = bindings c (DataService.param_name_of param_prefix i)
    ++ bindings_from param_prefix (S i) cs.
Proof.
  unfold bindings_from. rewrite imap_cons, Nat.add_0_r. simpl. f_equal. f_equal.
  apply imap_ext. intros j x _. simpl. by rewrite Nat.add_succ_r.
Qed.

Lemma build_clauses_eq param_prefix cs :
  ∀ i clauses params,
    DataService.build_clauses param_prefix i cs clauses params
    = (clauses ++ filter (λ s, truthy s = true) (clauses_from param_prefix i cs),
       bind_all (bindings_from param_prefix i cs) params).
Proof.
  induction cs as [|c cs IH]; intros i clauses params.
  - simpl. by rewrite app_nil_r.
  - cbn [DataService.build_clauses]. rewrite build_condition_eq.
    rewrite IH, clauses_from_cons, bindings_from_cons, bind_all_app.
    rewrite filter_cons. case_decide as Ht.
    + rewrite Ht. by rewrite <- app_assoc.
    + apply not_true_is_false in Ht. by rewrite Ht.
Qed.

Lemma filter_truthy_all (l : list string) :
  Forall (λ s, truthy s = true) l → filter (λ s, truthy s = true) l = l.
Proof.
  induction 1 as [|x l Hx Hl IH]; [done|].
  rewrite filter_cons_True by done. by rewrite IH.
Qed.

Lemma clause_truthy c param_name :
  well_formed_condition c = true → truthy (clause_of c param_name) = true.
Proof.
  unfold well_formed_condition, clause_of, DataService._build_condition.
  destruct (FilterCondition.operator c); try done.
  by destruct (FilterCondition.values c) as [[|v0 [|v1 vs]]|].
Qed.

Lemma clauses_from_truthy param_prefix cs :
  forallb well_formed_condition cs = true →
  ∀ i, Forall (λ s, truthy s = true) (clauses_from param_prefix i cs).
Proof.
  induction cs as [|c cs IH]; intros H i; [constructor|].
  simpl in H. apply andb_prop in H as [Hc Hcs].
  rewrite clauses_from_cons. constructor; [by apply clause_truthy|by apply IH].
Qed.

Lemma bindings_length c param_name :
  well_formed_condition c = true →
  length (bindings c param_name) = entries_required c.
Proof.
  unfold well_formed_condition, bindings, entries_required.
  destruct (FilterCondition.operator c); try done.
  by destruct (FilterCondition.values c) as [[|v0 [|v1 vs]]|].
Qed.

Lemma bindings_from_length param_prefix cs :
  forallb well_formed_condition cs = true →
  ∀ i, length (bindings_from param_prefix i cs) = sum_list (entries_required <$> cs).
Proof.
  induction cs as [|c cs IH]; intros H i; [done|].
  simpl in H. apply andb_prop in H as [Hc Hcs].
  rewrite bindings_from_cons, length_app, bindings_length, IH by done. done.
Qed.

Lemma bindings_keys c param_name k :
  k ∈ (bindings c param_name).*1 →
  ∃ s, s ∈ suffixes ∧ k = param_name +:+ s.
Proof.
  assert (param_name = param_name +:+ "") as Hnil by by rewrite app_nil_r_str.
  assert ("" ∈ suffixes ∧ "_min" ∈ suffixes ∧ "_max" ∈ suffixes)
    as (H0 & Hmin & Hmax) by (unfold suffixes; set_solver).
  unfold bindings.
  destruct (FilterCondition.operator c);
    try destruct (FilterCondition.values c) as [[|v0 [|v1 vs]]|];
    cbn [fmap list_fmap fst]; intros H;
    repeat (apply elem_of_cons in H as [-> | H]; [by eauto|]);
    by apply elem_of_nil in H.
Qed.

Lemma bindings_NoDup c param_name : NoDup (bindings c param_name).*1.
Proof.
  unfold bindings.
  destruct (FilterCondition.operator c);
    try destruct (FilterCondition.values c) as [[|v0 [|v1 vs]]|];
    cbn [fmap list_fmap fst];
    repeat first [apply NoDup_nil_2 | apply NoDup_cons_2]; set_unfold; try tauto.
  intros [H|[]]. by apply String.app_inj in H.
Qed.

Lemma bindings_from_keys param_prefix cs :
  ∀ i k, k ∈ (bindings_from param_prefix i cs).*1 →
    ∃ j s, i ≤ j ∧ s ∈ suffixes
           ∧ k = DataService.param_name_of param_prefix j +:+ s.
Proof.
  induction cs as [|c cs IH]; intros i k H.
  - by apply elem_of_nil in H.
  - rewrite bindings_from_cons, fmap_app, elem_of_app in H. destruct H as [H|H].
    + apply bindings_keys in H as (s & Hs & ->). by exists i, s.
    + apply IH in H as (j & s & Hj & Hs & ->). exists j, s. split_and!; [lia|done..].
Qed.

Lemma bindings_from_NoDup param_prefix cs :
  ∀ i, NoDup (bindings_from param_prefix i cs).*1.
Proof.
  induction cs as [|c cs IH]; intros i; [constructor|].
  rewrite bindings_from_cons, fmap_app. apply NoDup_app. split_and!.
  - apply bindings_NoDup.
  - intros k Hk Hk'.
    apply bindings_keys in Hk as (s & Hs & ->).
    apply bindings_from_keys in Hk' as (j & s' & Hj & Hs' & Heq).
    apply param_name_inj in Heq as [-> _]; [lia|done..].
  - apply IH.
Qed.

Lemma logic_separator_declared logic :
  (String.eqb (upper logic) "AND" || String.eqb (upper logic) "OR") = true →
  DataService.logic_separator logic = " " +:+ upper logic +:+ " ".
Proof.
  unfold DataService.logic_separator.
  destruct (String.eqb (upper logic) "AND") eqn:E.
  - apply String.eqb_eq in E as ->. done.
  - simpl. intros ->%String.eqb_eq. done.
Qed.

Lemma build_filter_clause_eq filters param_prefix :
  (String.eqb (upper (FilterParams.logic filters)) "AND"
   || String.eqb (upper (FilterParams.logic filters)) "OR") = true →
  forallb well_formed_condition (FilterParams.conditions filters) = true →
  DataService._build_filter_clause (Some filters) param_prefix
  = match FilterParams.conditions filters with
    | [] => ("", ∅)
    | cs =>
        ("(" +:+ join (" " +:+ upper (FilterParams.logic filters) +:+ " ")
                   (clauses_from param_prefix 0 cs) +:+ ")",
         bind_all (bindings_from param_prefix 0 cs) ∅)
    end.
Proof.
  intros Hlogic Hwf. unfold DataService._build_filter_clause.
  destruct (FilterParams.conditions filters) as [|c cs]; [done|].
  rewrite build_clauses_eq, app_nil_l.
  rewrite filter_truthy_all by by apply clauses_from_truthy.
  rewrite clauses_from_cons. by rewrite logic_separator_declared.
Qed.

End filter_translator.

(** C1.  For a well-formed filter set of N conditions, the predicate
    text is the N clauses of the conditions, each one not empty, in the
    order of the conditions, joined by the declared logic operator and
    enclosed in one pair of parentheses (with no condition at all the
    text is empty: no filter).  The parameter map holds exactly the
    bindings of the conditions: one entry for a clause with a value, the
    two entries [_min] and [_max] for a [BETWEEN] clause, none for
    [IS_NULL] and [IS_NOT_NULL]; no two bindings share a name. *)
Theorem filter_clause_shape (filters : FilterParams.t) (param_prefix : string) :
  well_formed filters = true →
  let conditions := FilterParams.conditions filters in
  let clauses := clauses_from param_prefix 0 conditions in
  let entries := bindings_from param_prefix 0 conditions in
  let logic := " " +:+ upper (FilterParams.logic filters) +:+ " " in
  let translated := DataService._build_filter_clause (Some filters) param_prefix in
  length clauses = length conditions
  ∧ Forall (λ clause, truthy clause = true) clauses
  ∧ translated.1
    = match conditions with
      | [] => ""
      | _ => "(" +:+ join logic clauses +:+ ")"
      end
  ∧ NoDup entries.*1
  ∧ (∀ k v, translated.2 !! k = Some v ↔ (k, v) ∈ entries)
  ∧ size translated.2 = sum_list (entries_required <$> conditions)
  ∧ (∀ i c, conditions !! i = Some c →
       length (bindings c (DataService.param_name_of param_prefix i))
       = entries_required c).
Proof.
  intros [Hlogic Hwf]%andb_prop conditions clauses entries logic translated.
  subst conditions clauses entries logic translated.
  rewrite build_filter_clause_eq by done.
  pose proof (clauses_from_truthy param_prefix _ Hwf 0) as Htruthy.
  pose proof (bindings_from_NoDup param_prefix (FilterParams.conditions filters) 0) as Hnd.
  pose proof (bindings_from_length param_prefix _ Hwf 0) as Hlen.
  rewrite forallb_forall in Hwf.
  split_and!.
  - unfold clauses_from. by rewrite length_imap.
  - done.
  - by destruct (FilterParams.conditions filters).
  - done.
  - intros k v. destruct (FilterParams.conditions filters) as [|c cs].
    + simpl. rewrite lookup_empty, elem_of_nil. by split.
    + by apply bind_all_lookup.
  - destruct (FilterParams.conditions filters) as [|c cs]; [done|].
    cbn [snd]. by rewrite bind_all_size.
  - intros i c Hi. apply bindings_length, Hwf.
    apply list_elem_of_In. by eapply list_elem_of_lookup_2.
Qed.

Lemma filter_clause_shape_witness :
  well_formed Examples.filters = true
  ∧ (DataService._build_filter_clause (Some Examples.filters) "f").1
    = "(`year` = %(f_0)s AND `territory` IN %(f_1)s AND `value` BETWEEN %(f_2_min)s AND %(f_2_max)s AND `unit` IS NULL)"
  ∧ size (DataService._build_filter_clause (Some Examples.filters) "f").2 = 4.
Proof.
  split; [reflexivity|].
  destruct (filter_clause_shape Examples.filters "f") as (_ & _ & Htext & _ & _ & Hsize & _);
    [reflexivity|].
  split; [rewrite Htext; reflexivity | rewrite Hsize; reflexivity].
Defined.
(** ** The row query and its count query *)

Section paging.

Lemma without_pagination_insert (params : gmap string any) (l o : any) :
  params !! "limit" = None → params !! "offset" = None →
  without_keys ["limit"; "offset"]
    (<["offset" := o]> (<["limit" := l]> params)) = params.
Proof.
  intros Hl Ho. unfold without_keys.
  rewrite !map_filter_insert_not by (intros y; cbn; done).
  apply map_filter_id. intros k v Hk. cbn [fst str_in existsb].
  destruct (String.eqb k "limit") eqn:E1.
  { apply String.eqb_eq in E1 as ->. congruence. }
  destruct (String.eqb k "offset") eqn:E2.
  { apply String.eqb_eq in E2 as ->. congruence. }
  done.
Qed.



Lemma list_filter_unbound {A} (inj : A → any) condition key vals st k :
  key ≠ k → unbound k st →
  unbound k (SopService.list_filter inj condition key vals st).
Proof.
  intros Hne H. unfold SopService.list_filter, unbound in *.
  destruct vals as [[|v vs]|]; try done.
  cbn [snd]. by rewrite lookup_insert_ne.
Qed.

Lemma group_filter_unbound groups st k :
  unbound k st → unbound k (SopService.group_filter groups st).
Proof.
  intros H. unfold SopService.group_filter, unbound in *.
  by destruct groups as [[|g gs]|].
Qed.

Lemma search_filter_unbound search st k :
  "search" ≠ k → unbound k st →
  unbound k (SopService.search_filter search st).
Proof.
  intros Hne H. unfold SopService.search_filter, unbound in *.
  destruct search as [[|c s]|]; try done.
  cbn [snd]. by rewrite lookup_insert_ne.
Qed.

Lemma where_clause_no_pagination filters :
  (SopService._build_where_clause filters).2 !! "limit" = None
  ∧ (SopService._build_where_clause filters).2 !! "offset" = None.
Proof.
  assert (∀ k, k = "limit" ∨ k = "offset" →
            (SopService._build_where_clause filters).2 !! k = None) as H;
    [|split; apply H; auto].
  intros k Hk. unfold SopService._build_where_clause.
  destruct filters as [filters|]; [|apply lookup_empty].
  assert (unbound k (SopService.where_parts filters)) as Hu.
  { unfold SopService.where_parts.
    repeat first
      [ apply search_filter_unbound; [by destruct Hk as [-> | ->]|]
      | apply list_filter_unbound; [by destruct Hk as [-> | ->]|]
      | apply group_filter_unbound ].
    apply lookup_empty. }
  destruct (SopService.where_parts filters) as [[|cond conds] params];
    [apply lookup_empty|exact Hu].
Qed.


End paging.


(** ** Aggregation *)

Section aggregation.




End aggregation.





(** ** Chart series *)

Section chart_series.

Lemma has_keys_item keys r k :
  has_keys keys r = true → k ∈ keys →
  row_item r k = Returned (default CNull (row_get r k)).
Proof.
  unfold has_keys, row_item. rewrite forallb_forall. intros H Hk.
  apply list_elem_of_In, H, bool_decide_eq_true in Hk as [v ->]. done.
Qed.

Lemma has_keys_discriminator keys r :
  has_keys keys r = true → "series" ∈ keys →
  ∃ s, row_get r "series" = Some s ∧ discriminator r = str_cell s.
Proof.
  unfold has_keys, discriminator. rewrite forallb_forall. intros H Hk.
  apply list_elem_of_In, H, bool_decide_eq_true in Hk as [v ->]. by exists v.
Qed.


Lemma group_by_series_returns keys data :
  Forall (λ r, has_keys keys r = true) data →
  "x" ∈ keys → "series" ∈ keys → "y" ∈ keys →
  ∀ series_data,
    SopService.group_by_series data series_data
    = Returned (group_rows data series_data).
Proof.
  intros H Hx Hs Hy. induction H as [|r data Hr _ IH]; intros acc; [done|].
  cbn [SopService.group_by_series].
  destruct (has_keys_discriminator _ _ Hr Hs) as (s & Hget & Hdisc).
  rewrite (has_keys_item _ _ _ Hr Hs), (has_keys_item _ _ _ Hr Hx),
    (has_keys_item _ _ _ Hr Hy), Hget.
  cbn [default]. cbv zeta. unfold id. rewrite <- Hdisc. apply IH.
Qed.



Lemma series_lookup_None n acc :
  series_lookup n acc = None ↔ n ∉ acc.*1.
Proof.
  induction acc as [|[k ps] acc IH]; simpl.
  - split; [intros _; apply not_elem_of_nil|done].
  - rewrite not_elem_of_cons. destruct (String.eqb k n) eqn:E.
    + apply String.eqb_eq in E as ->. split; [done|]. by intros [? _].
    + apply String.eqb_neq in E. rewrite IH. split; [by split|by intros [_ ?]].
Qed.


Lemma series_append_keys n p acc :
  (SopService.series_append n p acc).*1
  = acc.*1 ++ match series_lookup n acc with Some _ => [] | None => [n] end.
Proof.
  induction acc as [|[k ps] acc IH]; simpl; [done|].
  destruct (String.eqb k n) eqn:E; simpl.
  - by rewrite app_nil_r.
  - f_equal. apply IH.
Qed.







End chart_series.

Section chart_responses.

Lemma series_names (series_data : list (string * list Point.t)) :
  SopChartSeries.name <$>
    ((λ '(name, points),
        {| SopChartSeries.name := name; SopChartSeries.data := points |})
     <$> series_data)
  = series_data.*1.
Proof.
  induction series_data as [|[n ps] l IH]; [done|].
  rewrite !fmap_cons, IH. done.
Qed.



(** The chart of the S&OP service with a series discriminator. *)
Lemma sop_chart_series_returns sop request c s :
  SopChartRequest.series_by request = Some (String c s) →
  (∀ q p, Forall (λ r, has_keys ["x"; "series"; "y"] r = true)
            (client_query (SopService.db sop) q p)) →
  ∃ response query params,
    run (SopService.get_chart_data sop request)
    = (Returned response, [Query query params])
    ∧ SopChartResponse.series response
      = (λ '(name, points),
           {| SopChartSeries.name := name; SopChartSeries.data := points |})
        <$> group_rows (client_query (SopService.db sop) query params) [].
Proof.
  intros Hs Hdb. unfold run, SopService.get_chart_data. rewrite Hs.
  destruct (SopService._build_where_clause _) as [where_clause params].
  rewrite bind_assoc, bind_fetch_all, bind_assoc.
  rewrite (group_by_series_returns ["x"; "series"; "y"])
    by (try apply Hdb; set_solver).
  rewrite bind_lift_returned, bind_ret.
  eexists _, _, _. split; reflexivity.
Qed.



End chart_responses.


(** ** Export of an empty result *)

Section export.

Lemma export_data_empty self request table tr0 :
  DataService._resolve_table_name self
    (ExportRequest.data_source_id request)
    (ExportRequest.table_name request) [] = (Returned table, tr0) →
  client_query (DataService.db self)
    (export_statement request table).1 (export_statement request table).2 = [] →
  ∃ response object_name content content_type,
    run (DataService.export_data self request)
    = (Returned response,
       tr0 ++ [ Query (export_statement request table).1
                  (export_statement request table).2;
                Upload object_name content content_type;
                Presign object_name 24 ])
    ∧ ExportResponse.row_count response = 0
    ∧ ExportResponse.file_size response = String.length content
    ∧ content
      = if String.eqb (ExportRequest.format request) "json" then "[]" else "".
Proof.
  unfold export_statement. intros Hres Hempty.
  unfold run, DataService.export_data.
  rewrite (bind_returned _ _ _ _ _ Hres).
  destruct (DataService._build_filter_clause _ _) as [where_clause fp].
  cbn [fst snd] in Hempty. rewrite bind_fetch_all, Hempty.
  destruct (String.eqb (ExportRequest.format request) "json").
  - rewrite bind_ret, !bind_emit, <- !app_assoc.
    eexists _, _, _, _. split; [reflexivity|]. done.
  - rewrite bind_assoc. cbn [DataService._generate_csv].
    rewrite bind_lift_returned, !bind_ret, !bind_emit, <- !app_assoc.
    eexists _, _, _, _. split; [reflexivity|]. done.
Qed.

Lemma sop_export_data_empty sop minio request :
  SopService.minio sop = Some minio →
  client_query (SopService.db sop)
    (sop_export_statement request).1 (sop_export_statement request).2 = [] →
  ∃ response object_name content content_type,
    run (SopService.export_data sop request)
    = (Returned response,
       [ Query (sop_export_statement request).1 (sop_export_statement request).2;
         Upload object_name content content_type;
         Presign object_name 24 ])
    ∧ SopExportResponse.row_count response = 0
    ∧ SopExportResponse.file_size response = String.length content
    ∧ content
      = if String.eqb (SopExportRequest.format request) "json" then "[]" else "".
Proof.
  unfold sop_export_statement. intros Hminio Hempty.
  unfold run, SopService.export_data. rewrite Hminio.
  destruct (SopService._build_where_clause _) as [where_clause params].
  cbn [fst snd] in Hempty. rewrite bind_fetch_all, Hempty.
  destruct (String.eqb (SopExportRequest.format request) "json").
  - rewrite bind_ret, !bind_emit.
    eexists _, _, _, _. split; [reflexivity|]. done.
  - rewrite bind_assoc. cbn [SopService._generate_csv].
    rewrite bind_lift_returned, !bind_ret, !bind_emit.
    eexists _, _, _, _. split; [reflexivity|]. done.
Qed.

End export.

(** C9, as amended.  An export whose query returns no row is not an
    error: the request returns, with a row count of zero, after storing
    its artifact.  For the JSON format the artifact is the empty list
    [[]].  For the delimited format, and for any other format name, the
    artifact is the empty byte string, of size zero: it has no header
    row, the header being taken from the first row of the result. *)
Theorem empty_export_is_empty_artifact
    (self : DataService.t) (request : ExportRequest.t)
    (table : string) (tr0 : list event)
    (sop : SopService.t) (minio : MinIOClient) (sop_request : SopExportRequest.t) :
  DataService._resolve_table_name self
    (ExportRequest.data_source_id request)
    (ExportRequest.table_name request) [] = (Returned table, tr0) →
  client_query (DataService.db self)
    (export_statement request table).1 (export_statement request table).2 = [] →
  SopService.minio sop = Some minio →
  client_query (SopService.db sop)
    (sop_export_statement sop_request).1 (sop_export_statement sop_request).2 = [] →
  DataService._generate_csv [] = Returned ""
  ∧ SopService._generate_csv [] = Returned ""
  ∧ Json.dumps true [] = "[]"
  ∧ Json.dumps false [] = "[]"
  ∧ (∃ response object_name content content_type,
       run (DataService.export_data self request)
       = (Returned response,
          tr0 ++ [ Query (export_statement request table).1
                     (export_statement request table).2;
                   Upload object_name content content_type;
                   Presign object_name 24 ])
       ∧ ExportResponse.row_count response = 0
       ∧ ExportResponse.file_size response = String.length content
       ∧ content
         = if String.eqb (ExportRequest.format request) "json" then "[]" else "")
  ∧ (∃ response object_name content content_type,
       run (SopService.export_data sop sop_request)
       = (Returned response,
          [ Query (sop_export_statement sop_request).1
              (sop_export_statement sop_request).2;
            Upload object_name content content_type;
            Presign object_name 24 ])
       ∧ SopExportResponse.row_count response = 0
       ∧ SopExportResponse.file_size response = String.length content
       ∧ content
         = if String.eqb (SopExportRequest.format sop_request) "json"
           then "[]" else "").
Proof.
  intros Hres Hempty Hminio Hsop. split_and!; try done.
  - by apply export_data_empty.
  - by eapply sop_export_data_empty.
Qed.

Lemma empty_export_is_empty_artifact_witness :
  ∃ response object_name content_type,
    run (DataService.export_data Examples.data_service Examples.export_csv_request)
    = (Returned response,
       [] ++ [ Query (export_statement Examples.export_csv_request "facts").1
                 (export_statement Examples.export_csv_request "facts").2;
               Upload object_name "" content_type;
               Presign object_name 24 ])
    ∧ ExportResponse.file_size response = 0.
Proof.
  destruct (empty_export_is_empty_artifact Examples.data_service
              Examples.export_csv_request "facts" []
              Examples.sop_service Examples.storage
              Examples.sop_export_csv_request)
    as (_ & _ & _ & _ & (response & object_name & content & content_type
                         & Hrun & _ & Hsize & Hcontent) & _);
    [reflexivity..|].
  change (ExportRequest.format Examples.export_csv_request) with "csv" in Hcontent.
  cbn in Hcontent. subst content.
  by exists response, object_name, content_type.
Defined.

(** C9 as stated fails for delimited text: the export of an empty
    result stores the empty byte string, not a header row followed by
    no data row.  The request selects the column [year]; a header-only
    artifact would be the record [year], six bytes with its line
    terminator. *)
Lemma empty_csv_export_has_no_header :
  DataService._generate_csv [] = Returned ""
  ∧ SopService._generate_csv [] = Returned ""
  ∧ String.length (Csv.record ["year"]) = 6
  ∧ match run (DataService.export_data Examples.data_service
                 Examples.export_csv_request) with
    | (Returned response, [Query _ _; Upload _ file_data content_type; Presign _ _]) =>
        file_data = "" ∧ content_type = "text/csv"
        ∧ ExportResponse.file_size response = 0
        ∧ ExportResponse.row_count response = 0
    | _ => False
    end
  ∧ match run (SopService.export_data Examples.sop_service
                 Examples.sop_export_csv_request) with
    | (Returned response, [Query _ _; Upload _ file_data content_type; Presign _ _]) =>
        file_data = "" ∧ content_type = "text/csv"
        ∧ SopExportResponse.file_size response = 0
    | _ => False
    end.
Proof. by vm_compute. Qed.
(** ** What a computation sends *)

Section sending.



Lemma sends_raise {A} (e : exn) : sends (@raise A e) [].
Proof. intros tr. exists []. by rewrite app_nil_r. Qed.



Lemma sends_emit_bind {B} (ev : event) (f : unit → io B) (evs : list event) :
  sends (f ()) evs → sends (emit ev ≫= f) (ev :: evs).
Proof.
  intros Hf tr. rewrite bind_emit. specialize (Hf (tr ++ [ev])).
  destruct (f () (tr ++ [ev])) as [[b|e] tr'].
  - by rewrite Hf, <- app_assoc.
  - destruct Hf as (sent & -> & Hsent). exists (ev :: sent).
    split; [by rewrite <- app_assoc|]. by apply prefix_cons.
Qed.

Lemma sends_fetch_all_bind {B} db q p (f : list row → io B) (evs : list event) :
  (∀ rows, sends (f rows) evs) → sends (fetch_all db q p ≫= f) (Query q p :: evs).
Proof.
  intros Hf tr. rewrite bind_fetch_all.
  specialize (Hf (client_query db q p) (tr ++ [Query q p])).
  destruct (f _ _) as [[b|e] tr'].
  - by rewrite Hf, <- app_assoc.
  - destruct Hf as (sent & -> & Hsent). exists (Query q p :: sent).
    split; [by rewrite <- app_assoc|]. by apply prefix_cons.
Qed.

Lemma sends_fetch_one_bind {B} db q p (f : option row → io B) (evs : list event) :
  (∀ r, sends (f r) evs) → sends (fetch_one db q p ≫= f) (Query q p :: evs).
Proof.
  intros Hf. unfold fetch_one. intros tr. rewrite bind_assoc.
  apply (sends_fetch_all_bind db q p _ evs). intros rows tr'. apply Hf.
Qed.


(** From a trace that is not empty. *)
Lemma sends_from {A} (m : io A) (evs : list event) tr :
  sends m evs →
  match m tr with
  | (Returned _, tr') => tr' = tr ++ evs
  | (Raised _, tr') => ∃ sent, tr' = tr ++ sent ∧ sent `prefix_of` evs
  end.
Proof. intros H. apply H. Qed.




End sending.

(** ** The filter options of the S&OP service *)

Section filter_options.



End filter_options.

(** ** Resolving the table of a request *)

Section sources.

Lemma bind_raised {A B} (m : io A) (f : A → io B) tr e tr' :
  m tr = (Raised e, tr') → (m ≫= f) tr = (Raised e, tr').
Proof. intros H. unfold mbind, io_bind. by rewrite H. Qed.

Lemma str_filter_app (p : ascii → bool) (a b : string) :
  str_filter p (a +:+ b) = str_filter p a +:+ str_filter p b.
Proof.
  induction a as [|x a IH]; [done|].
  rewrite app_cons_str. simpl. destruct (p x); [|done].
  by rewrite app_cons_str, IH.
Qed.

Lemma str_filter_idemp (p : ascii → bool) (s : string) :
  str_filter p (str_filter p s) = str_filter p s.
Proof. apply str_filter_id, str_forall_filter. Qed.


End sources.

(** X2.  A request that names neither a table nor a data source is
    refused with a [ValueError] before anything is sent to the store,
    and so is one whose data source the store does not know, after the
    one lookup statement.  Whatever [_resolve_table_name] raises, the
    four operations of the service raise the same, having sent what the
    resolution sent and no more. *)
Theorem missing_source_stops_the_request (self : DataService.t) :
  (∀ table_name : option string,
     truthy_opt table_name = false →
     run (DataService._resolve_table_name self None table_name)
     = (Raised missing_source, []))
  ∧ (∀ (id : string) (table_name : option string),
       truthy_opt table_name = false →
       client_query (DataService.db self)
         "SELECT table_name, query FROM data_sources WHERE id = %(id)s"
         {[ "id" := VStr id ]} = [] →
       run (DataService._resolve_table_name self (Some id) table_name)
       = (Raised missing_source, [source_lookup id]))
  ∧ (∀ (request : DataQueryRequest.t) e tr0,
       run (DataService._resolve_table_name self
              (DataQueryRequest.data_source_id request)
              (DataQueryRequest.table_name request)) = (Raised e, tr0) →
       run (DataService.query_data self request) = (Raised e, tr0))
  ∧ (∀ (request : AggregationRequest.t) e tr0,
       run (DataService._resolve_table_name self
              (AggregationRequest.data_source_id request)
              (AggregationRequest.table_name request)) = (Raised e, tr0) →
       run (DataService.aggregate_data self request) = (Raised e, tr0))
  ∧ (∀ (request : ChartDataRequest.t) e tr0,
       run (DataService._resolve_table_name self
              (ChartDataRequest.data_source_id request)
              (ChartDataRequest.table_name request)) = (Raised e, tr0) →
       run (DataService.get_chart_data self request) = (Raised e, tr0))
  ∧ (∀ (request : ExportRequest.t) e tr0,
       run (DataService._resolve_table_name self
              (ExportRequest.data_source_id request)
              (ExportRequest.table_name request)) = (Raised e, tr0) →
       run (DataService.export_data self request) = (Raised e, tr0)).
Proof.
  split_and!.
  - intros [[|c s]|] H; done.
  - intros id [[|c s]|] H Hq; try done.
    all: unfold run, DataService._resolve_table_name.
    all: by rewrite bind_fetch_one, Hq.
  - intros request e tr0 H. by apply bind_raised.
  - intros request e tr0 H. by apply bind_raised.
  - intros request e tr0 H. by apply bind_raised.
  - intros request e tr0 H. by apply bind_raised.
Qed.

Lemma missing_source_stops_the_request_witness :
  run (DataService.query_data Examples.data_service
         (DataQueryRequest.mk None (Some "") None None [] 1 50))
  = (Raised missing_source, [])
  ∧ run (DataService.export_data Examples.data_service
           (ExportRequest.mk (Some "42") None "csv" None None None))
    = (Raised missing_source, [source_lookup "42"]).
Proof.
  destruct (missing_source_stops_the_request Examples.data_service)
    as (Hnone & Hunknown & Hquery & _ & _ & Hexport).
  split.
  - apply Hquery. apply Hnone. reflexivity.
  - apply Hexport. apply Hunknown; reflexivity.
Defined.



(** X4.  Sanitizing is idempotent: the sanitizer applied to its own
    result gives that result again, the backticks it added being
    removed and added anew. *)
Theorem sanitize_identifier_idempotent (identifier : string) :
  DataService._sanitize_identifier (DataService._sanitize_identifier identifier)
  = DataService._sanitize_identifier identifier.
Proof.
  unfold DataService._sanitize_identifier.
  rewrite !str_filter_app, str_filter_idemp. cbn [str_filter].
  change (DataService.allowed_char "`") with false. cbv iota.
  by rewrite app_nil_r_str.
Qed.
(** ** The filter translator on any filter set *)

Section any_filter_set.

Lemma clause_of_shape c c' param_name :
  same_shape c c' → clause_of c param_name = clause_of c' param_name.
Proof.
  intros (Hf & Ho & Hb). unfold clause_of, DataService._build_condition.
  unfold between_insufficient in Hb. rewrite <- Hf, <- Ho in *.
  destruct (FilterCondition.operator c); try done.
  destruct (FilterCondition.values c) as [[|v0 [|v1 vs]]|];
    destruct (FilterCondition.values c') as [[|w0 [|w1 ws]]|]; done.
Qed.

Lemma bindings_keys_shape c c' param_name :
  same_shape c c' → (bindings c param_name).*1 = (bindings c' param_name).*1.
Proof.
  intros (Hf & Ho & Hb). unfold bindings.
  unfold between_insufficient in Hb. rewrite <- Ho in *.
  destruct (FilterCondition.operator c); try done.
  destruct (FilterCondition.values c) as [[|v0 [|v1 vs]]|];
    destruct (FilterCondition.values c') as [[|w0 [|w1 ws]]|]; done.
Qed.

Lemma clauses_from_shape param_prefix cs cs' :
  Forall2 same_shape cs cs' →
  ∀ i, clauses_from param_prefix i cs = clauses_from param_prefix i cs'.
Proof.
  induction 1 as [|c c' cs cs' Hc _ IH]; intros i; [done|].
  rewrite !clauses_from_cons, IH. f_equal. by apply clause_of_shape.
Qed.

Lemma bindings_from_keys_shape param_prefix cs cs' :
  Forall2 same_shape cs cs' →
  ∀ i, (bindings_from param_prefix i cs).*1 = (bindings_from param_prefix i cs').*1.
Proof.
  induction 1 as [|c c' cs cs' Hc _ IH]; intros i; [done|].
  rewrite !bindings_from_cons, !fmap_app, IH. f_equal.
  by apply bindings_keys_shape.
Qed.

Lemma dom_bind_all (l : list (string * any)) :
  dom (bind_all l ∅) = list_to_set l.*1.
Proof.
  induction l as [|[k v] l IH] using rev_ind; [apply dom_empty_L|].
  rewrite bind_all_app, fmap_app, list_to_set_app_L.
  cbn [bind_all foldl fst snd]. fold (bind_all l ∅).
  rewrite dom_insert_L, IH. cbn [list_to_set fmap list_fmap fst].
  rewrite union_empty_r_L. apply union_comm_L.
Qed.

Lemma clause_truthy_iff c param_name :
  truthy (clause_of c param_name) = negb (between_insufficient c).
Proof.
  unfold clause_of, between_insufficient, DataService._build_condition.
  destruct (FilterCondition.operator c); try done.
  by destruct (FilterCondition.values c) as [[|v0 [|v1 vs]]|].
Qed.

Lemma kept_clauses_length param_prefix cs :
  ∀ i, length (filter (λ s, truthy s = true) (clauses_from param_prefix i cs))
       = length (filter (λ c, between_insufficient c = false) cs).
Proof.
  induction cs as [|c cs IH]; intros i; [done|].
  rewrite clauses_from_cons, !filter_cons, clause_truthy_iff.
  destruct (between_insufficient c); repeat case_decide; try done.
  all: cbn [length]; by rewrite IH.
Qed.

Lemma bindings_length_bound c param_name :
  length (bindings c param_name) = entries_bound c.
Proof.
  unfold bindings, entries_bound, between_insufficient, entries_required.
  destruct (FilterCondition.operator c); try done.
  by destruct (FilterCondition.values c) as [[|v0 [|v1 vs]]|].
Qed.

Lemma bindings_from_length_bound param_prefix cs :
  ∀ i, length (bindings_from param_prefix i cs) = sum_list (entries_bound <$> cs).
Proof.
  induction cs as [|c cs IH]; intros i; [done|].
  rewrite bindings_from_cons, length_app, bindings_length_bound, IH. done.
Qed.

Lemma kept_nil_bindings_nil param_prefix cs :
  ∀ i, filter (λ s, truthy s = true) (clauses_from param_prefix i cs) = [] →
       bindings_from param_prefix i cs = [].
Proof.
  induction cs as [|c cs IH]; intros i; [done|].
  rewrite clauses_from_cons, filter_cons, bindings_from_cons.
  case_decide as Ht; [done|]. intros H. rewrite (IH _ H), app_nil_r.
  rewrite clause_truthy_iff in Ht.
  pose proof (bindings_length_bound c (DataService.param_name_of param_prefix i)) as Hl.
  unfold entries_bound in Hl. destruct (between_insufficient c); [|done].
  by apply nil_length_inv.
Qed.

Lemma build_filter_clause_any filters param_prefix :
  DataService._build_filter_clause (Some filters) param_prefix
  = match filter (λ s, truthy s = true)
            (clauses_from param_prefix 0 (FilterParams.conditions filters)) with
    | [] => ("", ∅)
    | kept =>
        ("(" +:+ join (DataService.logic_separator (FilterParams.logic filters)) kept
           +:+ ")",
         bind_all (bindings_from param_prefix 0 (FilterParams.conditions filters)) ∅)
    end.
Proof.
  unfold DataService._build_filter_clause.
  destruct (FilterParams.conditions filters) as [|c cs]; [done|].
  rewrite build_clauses_eq, app_nil_l. by destruct (filter _ _).
Qed.

End any_filter_set.

(** X5.  The values of a filter never reach the predicate text: two
    filter sets with the same logic whose conditions agree, position by
    position, on field and operator (and on whether a [BETWEEN] has its
    two values) translate to the same text and bind the same parameter
    names, whatever their values are. *)
Theorem filter_values_stay_out_of_the_text
    (cs cs' : list FilterCondition.t) (logic param_prefix : string) :
  Forall2 same_shape cs cs' →
  let translated :=
    DataService._build_filter_clause (Some (FilterParams.mk cs logic)) param_prefix in
  let translated' :=
    DataService._build_filter_clause (Some (FilterParams.mk cs' logic)) param_prefix in
  translated.1 = translated'.1 ∧ dom translated.2 = dom translated'.2.
Proof.
  intros Hshape translated translated'. subst translated translated'.
  rewrite !build_filter_clause_any. cbn [FilterParams.conditions FilterParams.logic].
  rewrite <- (clauses_from_shape param_prefix cs cs' Hshape 0).
  destruct (filter _ _) as [|k kept]; [done|]. cbn [fst snd].
  split; [done|].
  by rewrite !dom_bind_all, (bindings_from_keys_shape param_prefix cs cs' Hshape 0).
Qed.

Lemma filter_values_stay_out_of_the_text_witness :
  (DataService._build_filter_clause
     (Some (FilterParams.mk [Examples.year_eq] "AND")) "f").1
  = (DataService._build_filter_clause
       (Some (FilterParams.mk
                [FilterCondition.mk "year" EQ (VStr "1; DROP TABLE facts") None]
                "AND")) "f").1.
Proof.
  apply (filter_values_stay_out_of_the_text [Examples.year_eq]
           [FilterCondition.mk "year" EQ (VStr "1; DROP TABLE facts") None]
           "AND" "f").
  repeat constructor.
Defined.

(** X6.  For any filter set, well formed or not, the predicate text is
    made of the clauses that are not empty, and a clause is empty
    exactly when its condition is a [BETWEEN] with fewer than two
    values.  The kept clauses keep the parameter names of their
    positions in the request: nothing is renumbered after a skipped
    condition.  They are joined by [AND] when the logic is [AND] in any
    case, and by [OR] for every other logic.  The parameter map holds
    the entries of the kept conditions only. *)
Theorem filter_translation_of_any_set
    (filters : FilterParams.t) (param_prefix : string) :
  let conditions := FilterParams.conditions filters in
  let kept :=
    filter (λ clause, truthy clause = true) (clauses_from param_prefix 0 conditions) in
  let logic :=
    if String.eqb (upper (FilterParams.logic filters)) "AND"
    then " AND " else " OR " in
  let translated := DataService._build_filter_clause (Some filters) param_prefix in
  translated.1
  = match kept with
    | [] => ""
    | _ => "(" +:+ join logic kept +:+ ")"
    end
  ∧ length kept
    = length (filter (λ c, between_insufficient c = false) conditions)
  ∧ size translated.2 = sum_list (entries_bound <$> conditions)
  ∧ (∀ k v, translated.2 !! k = Some v
            ↔ (k, v) ∈ bindings_from param_prefix 0 conditions)
  ∧ (∀ c param_name,
       truthy (clause_of c param_name) = negb (between_insufficient c)).
Proof.
  intros conditions kept logic translated.
  subst conditions kept logic translated. rewrite build_filter_clause_any.
  pose proof (kept_nil_bindings_nil param_prefix (FilterParams.conditions filters) 0)
    as Hnil.
  pose proof (bindings_from_NoDup param_prefix (FilterParams.conditions filters) 0)
    as Hnd.
  split_and!.
  - by destruct (filter _ _).
  - apply kept_clauses_length.
  - rewrite <- (bindings_from_length_bound param_prefix _ 0).
    destruct (filter _ _) as [|k kept].
    + by rewrite Hnil.
    + cbn [snd]. by apply bind_all_size.
  - intros k v. destruct (filter _ _) as [|k0 kept].
    + rewrite Hnil by done. cbn [snd]. rewrite lookup_empty, elem_of_nil. by split.
    + cbn [snd]. by apply bind_all_lookup.
  - apply clause_truthy_iff.
Qed.
(** ** The where clause of the S&OP service *)

Section sop_where.

Lemma counted_init : counted 0 0 [] ([], ∅).
Proof. split_and!; [done|apply map_size_empty|intros; apply lookup_empty]. Qed.

Lemma counted_list_filter {A} (inj : A → any) condition key vals n m used st :
  counted n m used st → key ∉ used →
  counted (n + present vals) (m + present vals) (key :: used)
    (SopService.list_filter inj condition key vals st).
Proof.
  intros (Hn & Hm & Hused) Hkey. unfold SopService.list_filter, present.
  destruct vals as [[|v vs]|]; unfold counted; cbn [truthy_list fst snd].
  1,3: split_and!; [lia..|intros k Hk; apply Hused; set_solver].
  split_and!.
  - rewrite length_app. cbn. lia.
  - rewrite map_size_insert_None by by apply Hused. lia.
  - intros k Hk. apply not_elem_of_cons in Hk as [Hne Hk].
    rewrite lookup_insert_ne by done. by apply Hused.
Qed.

Lemma counted_group_filter groups n m used st :
  counted n m used st →
  counted (n + present groups) m used (SopService.group_filter groups st).
Proof.
  intros (Hn & Hm & Hused). unfold SopService.group_filter, present.
  destruct groups as [[|g gs]|]; unfold counted; cbn [truthy_list fst snd].
  1,3: split_and!; [lia|done..].
  split_and!; [|done..]. rewrite length_app. cbn. lia.
Qed.

Lemma counted_search_filter search n m used st :
  counted n m used st → "search" ∉ used →
  counted (n + (if truthy_opt search then 1 else 0))
    (m + (if truthy_opt search then 1 else 0)) ("search" :: used)
    (SopService.search_filter search st).
Proof.
  intros (Hn & Hm & Hused) Hkey. unfold SopService.search_filter.
  destruct search as [[|c s]|]; unfold counted; cbn [truthy_opt truthy fst snd].
  1,3: split_and!; [lia..|intros k Hk; apply Hused; set_solver].
  split_and!.
  - rewrite length_app. cbn. lia.
  - rewrite map_size_insert_None by by apply Hused. lia.
  - intros k Hk. apply not_elem_of_cons in Hk as [Hne Hk].
    rewrite lookup_insert_ne by done. by apply Hused.
Qed.

End sop_where.

Ltac counted_chain :=
  lazymatch goal with
  | |- counted _ _ _ (SopService.search_filter _ _) =>
      eapply counted_search_filter; [counted_chain|]
  | |- counted _ _ _ (SopService.list_filter _ _ _ _ _) =>
      eapply counted_list_filter; [counted_chain|]
  | |- counted _ _ _ (SopService.group_filter _ _) =>
      eapply counted_group_filter; counted_chain
  | |- counted _ _ _ ([], ∅) => apply counted_init
  end.

Ltac fresh_key :=
  let H := fresh in
  intros H; repeat (apply elem_of_cons in H as [H|H]; [discriminate H|]);
  by apply elem_of_nil in H.

Section sop_where_counts.

Lemma where_parts_counted filters :
  ∃ used,
    counted (bound_filters filters + present (SopFilterParams.finkod_groups filters))
      (bound_filters filters) used (SopService.where_parts filters).
Proof.
  assert (∃ n m used, counted n m used (SopService.where_parts filters)
            ∧ n = bound_filters filters + present (SopFilterParams.finkod_groups filters)
            ∧ m = bound_filters filters) as (n & m & used & H & -> & ->);
    [|by exists used].
  eexists _, _, _. split.
  - unfold SopService.where_parts. cbv zeta. counted_chain; fresh_key.
  - unfold bound_filters. split; lia.
Qed.

End sop_where_counts.

(** X7.  The where clause of the S&OP service has one condition per
    filter that is given and not empty, joined by [AND], and one named
    parameter for each of them except the financial code groups, whose
    values are written into the text.  Without any such filter the
    clause is empty and binds nothing. *)
Theorem sop_where_clause_counts (filters : SopFilterParams.t) :
  let conditions := (SopService.where_parts filters).1 in
  let translated := SopService._build_where_clause (Some filters) in
  length conditions
  = bound_filters filters + present (SopFilterParams.finkod_groups filters)
  ∧ size translated.2 = bound_filters filters
  ∧ translated.1
    = match conditions with
      | [] => ""
      | _ => "WHERE " +:+ join " AND " conditions
      end.
Proof.
  intros conditions translated. subst conditions translated.
  destruct (where_parts_counted filters) as (used & Hn & Hm & _).
  unfold SopService._build_where_clause.
  destruct (SopService.where_parts filters) as [[|c cs] params]; cbn [fst snd] in *.
  - split_and!; [done| |done]. rewrite map_size_empty. cbn [length] in Hn. lia.
  - by split_and!.
Qed.

(** ** Aggregation in the S&OP service *)

Section sop_aggregation.

Lemma agg_expression_length value_col agg :
  length (SopService.agg_expression value_col agg)
  = if known_aggregation agg then 1 else 0.
Proof.
  unfold SopService.agg_expression, known_aggregation, str_in. cbn [existsb].
  by repeat (destruct (String.eqb agg _); [done|]).
Qed.

Lemma agg_expressions_length value_col aggs :
  length (mbind (SopService.agg_expression value_col) aggs)
  = length (filter (λ agg, known_aggregation agg = true) aggs).
Proof.
  induction aggs as [|agg aggs IH]; [done|].
  cbn [mbind list_bind]. rewrite length_app, agg_expression_length, filter_cons.
  fold (mbind (SopService.agg_expression value_col) aggs). rewrite IH.
  destruct (known_aggregation agg); by case_decide.
Qed.

End sop_aggregation.

(** X8.  An aggregation of the S&OP service always returns, after one
    statement.  Its column list names every group-by column and, for
    every requested aggregation name, known or not, the column
    [{name}_value]; the select list has an expression only for the five
    known names, and one more column for the quarter granularity. *)
Theorem sop_aggregation_columns
    (self : SopService.t) (request : SopAggregationRequest.t) :
  let group_by := SopAggregationRequest.group_by request in
  let aggregations := SopAggregationRequest.aggregations request in
  let quarter :=
    if bool_decide (SopAggregationRequest.time_granularity request = Some "quarter")
    then 1 else 0 in
  ∃ response where_clause params,
    run (SopService.aggregate_data self request)
    = (Returned response,
       [Query (SopService.aggregate_query request where_clause) params])
    ∧ params !! "limit" = Some (VInt (SopAggregationRequest.limit request))
    ∧ SopAggregationResponse.columns response
      = group_by ++ ((λ agg, agg +:+ "_value") <$> aggregations)
    ∧ length (SopAggregationResponse.columns response)
      = length group_by + length aggregations
    ∧ length (SopService.select_parts request)
      = length group_by + quarter
        + length (filter (λ agg, known_aggregation agg = true) aggregations).
Proof.
  intros group_by aggregations quarter. subst group_by aggregations quarter.
  unfold run, SopService.aggregate_data.
  destruct (SopService._build_where_clause _) as [where_clause params].
  rewrite bind_fetch_all. eexists _, _, _. split; [reflexivity|].
  cbn [SopAggregationResponse.columns]. split_and!.
  - apply lookup_insert_eq.
  - done.
  - by rewrite length_app, length_fmap.
  - unfold SopService.select_parts, SopService.group_cols.
    rewrite !length_app, length_fmap, agg_expressions_length.
    destruct (SopAggregationRequest.time_granularity request) as [g|].
    + destruct (String.eqb g "quarter") eqn:E.
      * apply String.eqb_eq in E as ->. by rewrite bool_decide_eq_true_2.
      * apply String.eqb_neq in E.
        rewrite bool_decide_eq_false_2 by congruence. done.
    + by rewrite bool_decide_eq_false_2.
Qed.

(** ** The summary views *)

(** X9.  Each summary view sends one statement and returns its rows
    under fixed columns.  The statement always filters on the unit; it
    filters on the year only when a year other than zero is given, and
    on the territory or the indicator only when a text that is not
    empty is given.  It sums the value column, groups by the view's
    columns and keeps at most a thousand rows. *)
Theorem summary_views_send_one_statement
    (year : option Z) (territory priznak : option string) (unit : string)
    (service : SopService.t) :
  let answer (columns : list string) (query : string) (params : gmap string any) :=
    (Returned
       {| SopAggregationResponse.columns := columns;
          SopAggregationResponse.data :=
            client_query (SopService.db service) query params;
          SopAggregationResponse.total_rows :=
            length (client_query (SopService.db service) query params) |},
     [Query query params]) in
  run (SopEndpoints.get_summary_by_territory year unit service)
  = answer ["territory"; "sum_value"]
      (summary_query "`territory`, sum(`value`) as sum_value" "territory" "territory"
         (summary_where (SopEndpoints.year_list year) None None))
      (summary_params (SopEndpoints.year_list year) None None unit)
  ∧ run (SopEndpoints.get_summary_by_month year territory unit service)
    = answer ["year"; "month"; "sum_value"]
        (summary_query "`year`, `month`, sum(`value`) as sum_value" "year, month" "year"
           (summary_where (SopEndpoints.year_list year) None
              (SopEndpoints.text_list territory)))
        (summary_params (SopEndpoints.year_list year) None
           (SopEndpoints.text_list territory) unit)
  ∧ run (SopEndpoints.get_summary_by_category year territory unit service)
    = answer ["category_code"; "category_name"; "sum_value"]
        (summary_query
           "`category_code`, `category_name`, sum(`value`) as sum_value"
           "category_code, category_name" "category_code"
           (summary_where (SopEndpoints.year_list year) None
              (SopEndpoints.text_list territory)))
        (summary_params (SopEndpoints.year_list year) None
           (SopEndpoints.text_list territory) unit)
  ∧ run (SopEndpoints.get_summary_by_driver year territory priznak unit service)
    = answer ["driver"; "sum_value"]
        (summary_query "`driver`, sum(`value`) as sum_value" "driver" "driver"
           (summary_where (SopEndpoints.year_list year)
              (SopEndpoints.text_list priznak) (SopEndpoints.text_list territory)))
        (summary_params (SopEndpoints.year_list year)
           (SopEndpoints.text_list priznak) (SopEndpoints.text_list territory) unit)
  ∧ (SopEndpoints.year_list (Some 0%Z) = None
     ∧ SopEndpoints.text_list (Some "") = None).
Proof.
  intros answer. subst answer.
  assert (∀ y, SopEndpoints.year_list (Some y)
               = if (y =? 0)%Z then None else Some [y]) as Hy by done.
  unfold SopEndpoints.get_summary_by_territory, SopEndpoints.get_summary_by_month,
    SopEndpoints.get_summary_by_category, SopEndpoints.get_summary_by_driver.
  destruct year as [y|]; [rewrite !Hy; destruct (y =? 0)%Z|];
    destruct territory as [[|c s]|]; destruct priznak as [[|c' s']|];
    split_and!; reflexivity.
Qed.
(** ** One statement per y-column *)

Section chart_statements.



End chart_statements.



(** ** The partition into series keeps every point *)

Section partition.

Lemma group_rows_keys data :
  ∀ acc,
    (group_rows data acc).*1
    = foldl (λ names x, if bool_decide (x ∈ names) then names else names ++ [x])
        acc.*1 (discriminator <$> data).
Proof.
  unfold group_rows.
  induction data as [|r data IH]; intros acc; [done|].
  rewrite fmap_cons. cbn [foldl].
  rewrite IH, series_append_keys. f_equal.
  destruct (series_lookup (discriminator r) acc) eqn:E.
  - rewrite app_nil_r, bool_decide_eq_true_2; [done|].
    destruct (decide (discriminator r ∈ acc.*1)) as [|Hout]; [done|].
    apply series_lookup_None in Hout. congruence.
  - apply series_lookup_None in E. by rewrite bool_decide_eq_false_2.
Qed.

Lemma series_append_points n p acc :
  sum_list (length ∘ snd <$> SopService.series_append n p acc)
  = S (sum_list (length ∘ snd <$> acc)).
Proof.
  induction acc as [|[k ps] acc IH]; [done|].
  cbn [SopService.series_append]. destruct (String.eqb k n).
  - rewrite !fmap_cons. cbn. rewrite length_app. cbn. lia.
  - rewrite !fmap_cons. cbn [sum_list]. rewrite IH. lia.
Qed.

Lemma group_rows_points data :
  ∀ acc,
    sum_list (length ∘ snd <$> group_rows data acc)
    = sum_list (length ∘ snd <$> acc) + length data.
Proof.
  unfold group_rows.
  induction data as [|r data IH]; intros acc; [cbn; lia|].
  cbn [foldl]. rewrite IH, series_append_points. cbn [length]. lia.
Qed.

Lemma series_points (series_data : list (string * list Point.t)) :
  length ∘ SopChartSeries.data <$>
    ((λ '(name, points),
        {| SopChartSeries.name := name; SopChartSeries.data := points |})
     <$> series_data)
  = (length ∘ snd <$> series_data).
Proof.
  induction series_data as [|[n ps] l IH]; [done|].
  rewrite !fmap_cons, IH. done.
Qed.

End partition.

(** X11.  With a series discriminator, the chart of the S&OP service
    loses and repeats no point: the series are listed in the order in
    which their discriminator values first occur in the rows, and the
    total number of points is the number of rows. *)
Theorem chart_partition_keeps_every_point
    (sop : SopService.t) (request : SopChartRequest.t) (c : ascii) (s : string) :
  SopChartRequest.series_by request = Some (String c s) →
  (∀ q p, Forall (λ r, has_keys ["x"; "series"; "y"] r = true)
            (client_query (SopService.db sop) q p)) →
  ∃ response query params,
    run (SopService.get_chart_data sop request)
    = (Returned response, [Query query params])
    ∧ let data := client_query (SopService.db sop) query params in
      SopChartSeries.name <$> SopChartResponse.series response
      = first_occurrences (discriminator <$> data)
      ∧ SopChartResponse.total_points response = length data
      ∧ sum_list (length ∘ SopChartSeries.data <$> SopChartResponse.series response)
        = length data.
Proof.
  intros Hs Hdb.
  destruct (sop_chart_series_returns sop request c s Hs Hdb)
    as (response & query & params & Hrun & Hseries).
  exists response, query, params. split; [exact Hrun|]. cbv zeta.
  assert (sum_list (length ∘ SopChartSeries.data <$> SopChartResponse.series response)
          = length (client_query (SopService.db sop) query params)) as Hsum.
  { rewrite Hseries, series_points, group_rows_points. done. }
  split_and!.
  - rewrite Hseries, series_names, group_rows_keys. done.
  - rewrite <- Hsum. unfold run, SopService.get_chart_data in Hrun.
    rewrite Hs in Hrun.
    destruct (SopService._build_where_clause _) as [where_clause fp].
    rewrite bind_assoc, bind_fetch_all, bind_assoc in Hrun.
    rewrite (group_by_series_returns ["x"; "series"; "y"]) in Hrun
      by (try apply Hdb; set_solver).
    rewrite bind_lift_returned, bind_ret in Hrun.
    by injection Hrun as <- _ _.
  - exact Hsum.
Qed.

Lemma chart_partition_keeps_every_point_witness :
  ∃ response query params,
    run (SopService.get_chart_data Examples.chart_sop_service
           Examples.sop_series_request)
    = (Returned response, [Query query params])
    ∧ SopChartResponse.total_points response = 3.
Proof.
  destruct (chart_partition_keeps_every_point Examples.chart_sop_service
              Examples.sop_series_request "t" "erritory")
    as (response & query & params & Hrun & _ & Htotal & _).
  - reflexivity.
  - intros q p. repeat constructor.
  - exists response, query, params. split; [exact Hrun|]. exact Htotal.
Defined.
(** ** Pages *)

Section pages.

Lemma ceiling_pages (t s : Z) :
  (1 ≤ s)%Z →
  ((((t + s - 1) `div` s) - 1) * s < t ≤ ((t + s - 1) `div` s) * s)%Z.
Proof.
  intros Hs.
  pose proof (Z.mul_div_le (t + s - 1) s ltac:(lia)).
  pose proof (Z.mul_succ_div_gt (t + s - 1) s ltac:(lia)).
  nia.
Qed.

Lemma get_column_info_returns self table tr :
  Forall (λ r, has_keys ["name"; "type"] r = true)
    (column_rows (DataService.db self) table) →
  DataService._get_column_info self table tr
  = (Returned (column_of <$> column_rows (DataService.db self) table),
     tr ++ [column_info_statement table]).
Proof.
  intros H. unfold DataService._get_column_info. rewrite bind_fetch_all.
  unfold column_rows, column_info_statement in *.
  generalize (tr ++ [Query (concat [nl; spaces 12; "SELECT name, type";
                 nl; spaces 12; "FROM system.columns";
                 nl; spaces 12; "WHERE table = %(table)s";
                 nl; spaces 12])
        {[ "table" := VStr table ]}]).
  induction H as [|r rows Hr _ IH]; intros tr'; [done|].
  cbn [for_each]. rewrite bind_assoc.
  rewrite (has_keys_item _ _ "name" Hr) by set_solver.
  rewrite bind_lift_returned, bind_assoc.
  rewrite (has_keys_item _ _ "type" Hr) by set_solver.
  rewrite bind_lift_returned, bind_ret.
  rewrite (bind_returned _ _ _ _ _ (IH tr')). done.
Qed.

Lemma read_total {B} rows t (f : cell → io B) tr :
  counted_total rows t →
  (match match rows with r :: _ => Some r | [] => None end with
   | Some (kv :: r) => lift (row_item (kv :: r) "total")
   | _ => mret (CInt 0)
   end ≫= f) tr = f (CInt t) tr.
Proof.
  unfold counted_total. destruct rows as [|[|kv r] rows].
  - by intros ->.
  - by intros ->.
  - intros H. unfold row_item. rewrite H. done.
Qed.

End pages.



(** X13.  A page of the S&OP service.  When the count statement
    answers [t] and the page size is at least 1, the query returns
    after two statements.  The response carries the rows of the row
    statement as its page, [t] as total, the page and page size of the
    request, and as number of pages the least number of pages of that
    size that hold [t] rows; the row statement skips [page - 1] times
    [page_size] rows and takes at most [page_size]. *)
Theorem page_of_sop_query
    (sop : SopService.t) (request : SopQueryRequest.t) (t : Z) :
  let translated := SopService._build_where_clause (SopQueryRequest.filters request) in
  let page_size := SopQueryRequest.page_size request in
  let row_statement :=
    SopService.row_query
      (SopService.select_columns (SopQueryRequest.columns request))
      translated.1
      (SopService.order_by_of (SopQueryRequest.sort request)) in
  let row_params :=
    <["offset" := VInt ((SopQueryRequest.page request - 1) * page_size)]>
      (<["limit" := VInt page_size]> translated.2) in
  (1 ≤ page_size)%Z →
  counted_total
    (client_query (SopService.db sop)
       (SopService.count_query translated.1) translated.2) t →
  ∃ response,
    run (SopService.query_data sop request)
    = (Returned response,
       [Query row_statement row_params;
        Query (SopService.count_query translated.1) translated.2])
    ∧ SopDataResponse.data response
      = client_query (SopService.db sop) row_statement row_params
    ∧ SopDataResponse.total response = t
    ∧ SopDataResponse.page response = SopQueryRequest.page request
    ∧ SopDataResponse.page_size response = page_size
    ∧ ((SopDataResponse.pages response - 1) * page_size < t
       ≤ SopDataResponse.pages response * page_size)%Z.
Proof.
  intros translated page_size row_statement row_params Hsize Ht.
  destruct (where_clause_no_pagination (SopQueryRequest.filters request)) as [Hl Ho].
  subst translated page_size row_statement row_params.
  unfold run, SopService.query_data.
  destruct (SopService._build_where_clause _) as [where_clause params].
  cbn [fst snd] in *.
  rewrite bind_fetch_all, bind_fetch_one.
  rewrite (without_pagination_insert _ _ _ Hl Ho).
  rewrite (read_total _ t) by exact Ht.
  cbn [DataService.int_of_cell]. rewrite bind_lift_returned. cbn [mret io_ret].
  destruct (Z.ltb_spec 0 (SopQueryRequest.page_size request)) as [_|E]; [|lia].
  eexists. split; [reflexivity|].
  pose proof (ceiling_pages t _ Hsize) as Hc.
  cbn. split_and!; try reflexivity; apply Hc.
Qed.

Lemma page_of_sop_query_witness :
  ∃ response,
    (run (SopService.query_data MoreExamples.counting_sop_service
            MoreExamples.sop_third_page)).1 = Returned response
    ∧ SopDataResponse.total response = 120%Z
    ∧ SopDataResponse.pages response = 3%Z.
Proof.
  destruct (page_of_sop_query MoreExamples.counting_sop_service
              MoreExamples.sop_third_page 120)
    as (response & Hrun & _ & Htotal & _ & _ & Hpages).
  - vm_compute. discriminate.
  - reflexivity.
  - exists response. rewrite Hrun. split; [reflexivity|]. split; [exact Htotal|].
    vm_compute in Hrun. injection Hrun as <-. reflexivity.
Defined.

(** X14.  A page size of 0 in a request object.  The generic service
    divides by it: after its three statements the query raises
    [ZeroDivisionError] and answers nothing.  The S&OP service guards
    the division: it returns, with 0 pages. *)
Theorem zero_page_size
    (self : DataService.t) (request : DataQueryRequest.t)
    (table : string) (tr0 : list event) (t : Z)
    (sop : SopService.t) (sop_request : SopQueryRequest.t) (t' : Z) :
  DataService._resolve_table_name self
    (DataQueryRequest.data_source_id request)
    (DataQueryRequest.table_name request) [] = (Returned table, tr0) →
  DataQueryRequest.page_size request = 0%Z →
  counted_total
    (client_query (DataService.db self)
       (DataService.count_query table
          (DataService.where_sql_of
             (DataService._build_filter_clause
                (DataQueryRequest.filters request) "f").1))
       (DataService._build_filter_clause
          (DataQueryRequest.filters request) "f").2) t →
  Forall (λ r, has_keys ["name"; "type"] r = true)
    (column_rows (DataService.db self) table) →
  SopQueryRequest.page_size sop_request = 0%Z →
  counted_total
    (client_query (SopService.db sop)
       (SopService.count_query
          (SopService._build_where_clause (SopQueryRequest.filters sop_request)).1)
       (SopService._build_where_clause (SopQueryRequest.filters sop_request)).2) t' →
  (run (DataService.query_data self request)).1 = Raised ZeroDivisionError
  ∧ length (run (DataService.query_data self request)).2 = length tr0 + 3
  ∧ ∃ response,
      (run (SopService.query_data sop sop_request)).1 = Returned response
      ∧ SopDataResponse.pages response = 0%Z
      ∧ SopDataResponse.total response = t'.
Proof.
  intros Hres Hsize Ht Hcols Hsize' Ht'.
  split_and!.
  - unfold run, DataService.query_data.
    rewrite (bind_returned _ _ _ _ _ Hres).
    destruct (DataService._build_filter_clause _ _) as [where_clause fp].
    cbn [fst snd] in *.
    rewrite bind_fetch_all, bind_fetch_one.
    rewrite (read_total _ t) by exact Ht.
    rewrite (bind_returned _ _ _ _ _ (get_column_info_returns _ _ _ Hcols)).
    cbn [DataService.int_of_cell]. rewrite bind_lift_returned.
    unfold DataService.floordiv. rewrite Hsize. reflexivity.
  - unfold run, DataService.query_data.
    rewrite (bind_returned _ _ _ _ _ Hres).
    destruct (DataService._build_filter_clause _ _) as [where_clause fp].
    cbn [fst snd] in *.
    rewrite bind_fetch_all, bind_fetch_one.
    rewrite (read_total _ t) by exact Ht.
    rewrite (bind_returned _ _ _ _ _ (get_column_info_returns _ _ _ Hcols)).
    cbn [DataService.int_of_cell]. rewrite bind_lift_returned.
    unfold DataService.floordiv. rewrite Hsize.
    unfold mbind, io_bind, lift. cbn [Z.eqb snd].
    rewrite !length_app. cbn [length]. lia.
  - destruct (where_clause_no_pagination (SopQueryRequest.filters sop_request))
      as [Hl Ho].
    unfold run, SopService.query_data.
    destruct (SopService._build_where_clause _) as [where_clause params].
    cbn [fst snd] in *.
    rewrite bind_fetch_all, bind_fetch_one.
    rewrite (without_pagination_insert _ _ _ Hl Ho).
    rewrite (read_total _ t') by exact Ht'.
    cbn [DataService.int_of_cell]. rewrite bind_lift_returned. cbn [mret io_ret].
    rewrite Hsize'. eexists. split; [reflexivity|]. by split.
Qed.

Lemma zero_page_size_witness :
  (run (DataService.query_data MoreExamples.counting_service
          MoreExamples.empty_page)).1 = Raised ZeroDivisionError
  ∧ ∃ response,
      (run (SopService.query_data MoreExamples.counting_sop_service
              MoreExamples.sop_empty_page)).1 = Returned response
      ∧ SopDataResponse.pages response = 0%Z.
Proof.
  destruct (zero_page_size MoreExamples.counting_service MoreExamples.empty_page
              "facts" [] 120
              MoreExamples.counting_sop_service MoreExamples.sop_empty_page 120)
    as (Hraised & _ & response & Hrun & Hpages & _).
  - reflexivity.
  - reflexivity.
  - reflexivity.
  - repeat constructor.
  - reflexivity.
  - reflexivity.
  - split; [exact Hraised|]. exists response. by split.
Defined.
(** ** Delimited text of a result *)

Section delimited.

Lemma str_in_elem k l : str_in k l = true ↔ k ∈ l.
Proof.
  unfold str_in. rewrite existsb_exists. split.
  - intros (x & Hx & E). apply String.eqb_eq in E as ->. by apply list_elem_of_In.
  - intros H. exists k. split; [by apply list_elem_of_In|apply String.eqb_refl].
Qed.

Lemma within_self r : within (row_keys r) r = true.
Proof.
  unfold within. apply forallb_forall. intros k Hk.
  by apply str_in_elem, list_elem_of_In.
Qed.

Lemma writerows_spec fieldnames rows :
  Csv.writerows fieldnames rows
  = if forallb (within fieldnames) rows
    then Returned (concat (csv_line fieldnames <$> rows))
    else Raised (ValueError "dict contains fields not in fieldnames").
Proof.
  induction rows as [|r rows IH]; [done|].
  cbn [Csv.writerows forallb]. unfold Csv.writerow, Csv.dict_to_list.
  fold (within fieldnames r). destruct (within fieldnames r); [|done].
  rewrite IH. by destruct (forallb _ rows).
Qed.

End delimited.

(** X15.  The delimited text of a result that has a first row.  The
    field names are the keys of the first row.  When every later row
    has its keys among them, both services return the header record
    followed by one record per row, the first row included, in row
    order; a row lacking a key leaves that field empty.  The generic
    service writes the keys themselves as header, the S&OP service
    their display labels.  When some later row has a key of its own,
    both raise, and no text is produced. *)
Theorem csv_of_rows (first : row) (rest : list row) :
  let fieldnames := row_keys first in
  let body := concat (csv_line fieldnames <$> first :: rest) in
  if forallb (within fieldnames) rest
  then DataService._generate_csv (first :: rest)
       = Returned (Csv.record fieldnames +:+ body)
       ∧ SopService._generate_csv (first :: rest)
         = Returned (Csv.record (SopService.label_of <$> fieldnames) +:+ body)
  else (∃ e, DataService._generate_csv (first :: rest) = Raised e)
       ∧ (∃ e, SopService._generate_csv (first :: rest) = Raised e).
Proof.
  intros fieldnames body. subst fieldnames body.
  unfold DataService._generate_csv, SopService._generate_csv. cbv zeta.
  rewrite writerows_spec. cbn [forallb]. rewrite within_self, andb_true_l.
  destruct (forallb _ rest); split; eauto.
Qed.

(** ** An export stores its artifact, then signs its address *)

(** X16.  An export of the generic service on a resolved table.  It
    sends one statement.  When the format is [json], or the delimited
    text of the rows exists, it returns after storing the artifact
    under [exports/] and the file name, and asking for an address of
    that same object valid 24 hours, in this order; the response
    carries that address, the file name, the length of the stored
    content and the number of rows; the file name is made of the first
    eight characters of the identifier drawn, the time stamp and the
    extension of the format, and any format other than [json] is
    delimited text.  When the delimited text raises, the export raises
    the same exception after its statement: nothing is stored or
    signed. *)
Theorem export_stores_then_signs
    (self : DataService.t) (request : ExportRequest.t)
    (table : string) (tr0 : list event) :
  let statement := export_statement request table in
  let data := client_query (DataService.db self) statement.1 statement.2 in
  let base :=
    "export_" +:+ String.substring 0 8 (uuid4_hex (DataService.ambient self))
    +:+ "_" +:+ utcnow_stamp (DataService.ambient self) in
  DataService._resolve_table_name self
    (ExportRequest.data_source_id request)
    (ExportRequest.table_name request) [] = (Returned table, tr0) →
  match run (DataService.export_data self request) with
  | (Returned response, trace) =>
      ∃ content content_type,
        let object_name := "exports/" +:+ ExportResponse.file_name response in
        trace = tr0 ++ [ Query statement.1 statement.2;
                         Upload object_name content content_type;
                         Presign object_name 24 ]
        ∧ ExportResponse.file_url response
          = presigned_url (DataService.minio self) object_name 24
        ∧ ExportResponse.file_size response = String.length content
        ∧ ExportResponse.row_count response = length data
        ∧ (if String.eqb (ExportRequest.format request) "json"
           then content = Json.dumps true data
                ∧ content_type = "application/json"
                ∧ ExportResponse.file_name response = base +:+ ".json"
           else DataService._generate_csv data = Returned content
                ∧ content_type = "text/csv"
                ∧ ExportResponse.file_name response = base +:+ ".csv")
  | (Raised e, trace) =>
      trace = tr0 ++ [Query statement.1 statement.2]
      ∧ String.eqb (ExportRequest.format request) "json" = false
      ∧ DataService._generate_csv data = Raised e
  end.
Proof.
  intros statement data base Hres. subst statement data base.
  unfold export_statement, run, DataService.export_data.
  rewrite (bind_returned _ _ _ _ _ Hres).
  destruct (DataService._build_filter_clause _ _) as [where_clause fp].
  cbn [fst snd]. rewrite bind_fetch_all.
  destruct (String.eqb (ExportRequest.format request) "json").
  - rewrite bind_ret, !bind_emit. cbn [mret io_ret].
    eexists _, _. rewrite <- !app_assoc. by split_and!.
  - rewrite bind_assoc.
    destruct (DataService._generate_csv _) as [content|e] eqn:Hcsv.
    + rewrite bind_lift_returned, !bind_ret, !bind_emit. cbn [mret io_ret].
      eexists _, _. rewrite <- !app_assoc. by split_and!.
    + unfold mbind, io_bind, lift. by split_and!.
Qed.

Lemma export_stores_then_signs_witness :
  match run (DataService.export_data MoreExamples.counting_service
               MoreExamples.counting_export) with
  | (Returned response, trace) =>
      length trace = 3
      ∧ ExportResponse.row_count response = 1
      ∧ ExportResponse.file_name response = "export_01234567_20240101_120000.csv"
  | (Raised _, _) => False
  end.
Proof.
  pose proof (export_stores_then_signs MoreExamples.counting_service
                MoreExamples.counting_export "facts" [] eq_refl) as H.
  destruct (run (DataService.export_data MoreExamples.counting_service
                   MoreExamples.counting_export)) as [[response|e] trace] eqn:Hrun.
  - destruct H as (content & content_type & -> & _ & _ & Hrows & _ & _ & Hname).
    split; [reflexivity|]. split; [exact Hrows | exact Hname].
  - vm_compute in Hrun. discriminate Hrun.
Defined.

(** X17.  An export of the S&OP service.  Without a storage client it
    raises [ValueError] before any statement is sent.  With one, it
    sends one statement, then stores the artifact under [exports/sop/]
    and the file name and asks for an address of that same object valid
    24 hours; the response carries that address, the length of the
    stored content and the number of rows, and the file name is made of
    the time stamp alone and the extension of the format.  When the
    delimited text raises, nothing is stored or signed. *)
Theorem sop_export_needs_storage
    (sop : SopService.t) (request : SopExportRequest.t) :
  let statement := sop_export_statement request in
  let data := client_query (SopService.db sop) statement.1 statement.2 in
  let base := "sop_export_" +:+ utcnow_stamp (SopService.ambient sop) in
  match SopService.minio sop with
  | None =>
      run (SopService.export_data sop request)
      = (Raised (ValueError "MinIO client not configured for export"), [])
  | Some minio =>
      match run (SopService.export_data sop request) with
      | (Returned response, trace) =>
          ∃ content content_type,
            let object_name :=
              "exports/sop/" +:+ SopExportResponse.file_name response in
            trace = [ Query statement.1 statement.2;
                      Upload object_name content content_type;
                      Presign object_name 24 ]
            ∧ SopExportResponse.file_url response
              = presigned_url minio object_name 24
            ∧ SopExportResponse.file_size response = String.length content
            ∧ SopExportResponse.row_count response = length data
            ∧ (if String.eqb (SopExportRequest.format request) "json"
               then content = Json.dumps false data
                    ∧ content_type = "application/json"
                    ∧ SopExportResponse.file_name response = base +:+ ".json"
               else SopService._generate_csv data = Returned content
                    ∧ content_type = "text/csv"
                    ∧ SopExportResponse.file_name response = base +:+ ".csv")
      | (Raised e, trace) =>
          trace = [Query statement.1 statement.2]
          ∧ String.eqb (SopExportRequest.format request) "json" = false
          ∧ SopService._generate_csv data = Raised e
      end
  end.
Proof.
  intros statement data base. subst statement data base.
  unfold sop_export_statement, run, SopService.export_data.
  destruct (SopService.minio sop) as [minio|]; [|done].
  destruct (SopService._build_where_clause _) as [where_clause params].
  cbn [fst snd]. rewrite bind_fetch_all.
  destruct (String.eqb (SopExportRequest.format request) "json").
  - rewrite bind_ret, !bind_emit. cbn [mret io_ret].
    eexists _, _. by split_and!.
  - rewrite bind_assoc.
    destruct (SopService._generate_csv _) as [content|e] eqn:Hcsv.
    + rewrite bind_lift_returned, !bind_ret, !bind_emit. cbn [mret io_ret].
      eexists _, _. by split_and!.
    + unfold mbind, io_bind, lift. by split_and!.
Qed.
(** ** Rows as dictionaries ([app/core/database.py]) *)

Section dictionaries.

Lemma dict_set_keys k v d :
  (Database.dict_set k v d).*1
  = if bool_decide (k ∈ d.*1) then d.*1 else d.*1 ++ [k].
Proof.
  induction d as [|[k0 x] d IH]; [done|].
  cbn [Database.dict_set]. destruct (String.eqb k0 k) eqn:E.
  - apply String.eqb_eq in E as ->. rewrite !fmap_cons. cbn [fst].
    rewrite bool_decide_eq_true_2; [done|apply list_elem_of_here].
  - apply String.eqb_neq in E. rewrite !fmap_cons, IH. cbn [fst].
    destruct (decide (k ∈ d.*1)) as [Hin|Hout].
    + rewrite !bool_decide_eq_true_2; [done| |done]. by apply list_elem_of_further.
    + rewrite !bool_decide_eq_false_2; [done| |done].
      rewrite not_elem_of_cons. by split.
Qed.

Lemma dict_set_get k v d k' :
  row_get (Database.dict_set k v d) k'
  = if String.eqb k k' then Some v else row_get d k'.
Proof.
  induction d as [|[k0 x] d IH].
  - done.
  - cbn [Database.dict_set]. destruct (String.eqb k0 k) eqn:E.
    + apply String.eqb_eq in E as ->. cbn [row_get].
      by destruct (String.eqb k k').
    + cbn [row_get]. rewrite IH. destruct (String.eqb k0 k') eqn:E'; [|done].
      apply String.eqb_eq in E' as ->. by rewrite String.eqb_sym, E.
Qed.

Lemma row_get_app (a b : row) k :
  row_get (a ++ b) k
  = match row_get a k with Some v => Some v | None => row_get b k end.
Proof.
  induction a as [|[k0 x] a IH]; [done|].
  cbn [app row_get]. by destruct (String.eqb k0 k).
Qed.

Lemma dict_fold_keys (l : list (string * cell)) :
  ∀ acc : row,
    (foldl (λ d kv, Database.dict_set kv.1 kv.2 d) acc l).*1
    = foldl (λ names x, if bool_decide (x ∈ names) then names else names ++ [x])
        acc.*1 l.*1.
Proof.
  induction l as [|[k v] l IH]; intros acc; [done|].
  rewrite fmap_cons. cbn [foldl fst snd]. by rewrite IH, dict_set_keys.
Qed.

Lemma dict_fold_get (l : list (string * cell)) k :
  ∀ acc : row,
    row_get (foldl (λ d kv, Database.dict_set kv.1 kv.2 d) acc l) k
    = match row_get (reverse l) k with
      | Some v => Some v
      | None => row_get acc k
      end.
Proof.
  induction l as [|[k0 v] l IH]; intros acc; [done|].
  cbn [foldl fst snd]. rewrite IH, reverse_cons, row_get_app, dict_set_get.
  cbn [row_get]. by destruct (row_get (reverse l) k), (String.eqb k0 k).
Qed.

Lemma first_occurrences_NoDup (l : list string) :
  ∀ acc, NoDup acc →
    NoDup (foldl (λ names x, if bool_decide (x ∈ names) then names else names ++ [x])
             acc l).
Proof.
  induction l as [|x l IH]; intros acc Hacc; [done|].
  cbn [foldl]. apply IH. case_bool_decide; [done|].
  apply NoDup_app. split_and!; [done| |apply NoDup_singleton].
  intros y Hy ->%list_elem_of_singleton. done.
Qed.

Lemma zip_keys (columns : list string) (values : list cell) :
  (zip columns values).*1 = take (length values) columns.
Proof.
  revert values. induction columns as [|c columns IH]; intros [|v values]; try done.
  cbn [zip zip_with length take]. by rewrite fmap_cons, IH.
Qed.

Lemma dict_set_fresh k v (d : row) :
  k ∉ d.*1 → Database.dict_set k v d = d ++ [(k, v)].
Proof.
  induction d as [|[k0 x] d IH]; [done|].
  rewrite fmap_cons, not_elem_of_cons. cbn [fst]. intros [Hne Hout].
  cbn [Database.dict_set]. apply not_eq_sym, String.eqb_neq in Hne.
  rewrite Hne, IH by done. done.
Qed.

Lemma dict_fold_fresh (l : list (string * cell)) :
  ∀ acc : row,
    NoDup (acc.*1 ++ l.*1) →
    foldl (λ d kv, Database.dict_set kv.1 kv.2 d) acc l = acc ++ l.
Proof.
  induction l as [|[k v] l IH]; intros acc Hnd; [by rewrite app_nil_r|].
  cbn [foldl fst snd]. rewrite fmap_cons in Hnd. cbn [fst] in Hnd.
  rewrite dict_set_fresh.
  - rewrite IH; [by rewrite <- app_assoc|].
    rewrite fmap_app, <- app_assoc. done.
  - apply NoDup_app in Hnd as (_ & Hdis & _). intros Hin.
    apply (Hdis k Hin), list_elem_of_here.
Qed.

Lemma values_of_own_keys (r : row) :
  NoDup (row_keys r) →
  (λ col, default CNull (row_get r col)) <$> row_keys r = r.*2.
Proof.
  unfold row_keys. induction r as [|[k v] r IH]; [done|].
  rewrite !fmap_cons. cbn [fst snd]. intros [Hk Hnd]%NoDup_cons.
  f_equal.
  - cbn [row_get]. by rewrite String.eqb_refl.
  - rewrite <- IH by done. apply list_fmap_ext. intros i col Hcol.
    cbn [row_get]. destruct (String.eqb k col) eqn:E; [|done].
    apply String.eqb_eq in E as ->. exfalso. apply Hk.
    by eapply list_elem_of_lookup_2.
Qed.

Lemma dict_of_own_values (r : row) :
  NoDup (row_keys r) →
  Database.dict_zip (row_keys r)
    ((λ col, default CNull (row_get r col)) <$> row_keys r) = r.
Proof.
  intros Hnd. rewrite values_of_own_keys by done.
  unfold Database.dict_zip, row_keys. rewrite zip_fst_snd.
  rewrite dict_fold_fresh; [done|]. done.
Qed.

End dictionaries.

(** X18.  A row read from the store is a dictionary over the column
    names of the result.  Its keys are distinct: a column name that the
    result repeats is kept once, at its first position, and holds the
    value of its last occurrence.  Values beyond the column names, and
    column names beyond the values, are dropped. *)
Theorem fetched_row_is_a_dictionary (columns : list string) (values : list cell) :
  let d := Database.dict_zip columns values in
  NoDup (row_keys d)
  ∧ row_keys d = first_occurrences (take (length values) columns)
  ∧ (∀ k, row_get d k = row_get (reverse (zip columns values)) k)
  ∧ (NoDup columns → length columns = length values → d = zip columns values).
Proof.
  intros d. subst d. unfold Database.dict_zip, row_keys, first_occurrences.
  rewrite dict_fold_keys, zip_keys. split_and!.
  - apply first_occurrences_NoDup, NoDup_nil_2.
  - done.
  - intros k. rewrite dict_fold_get. by destruct (row_get _ k).
  - intros Hnd Hlen. rewrite dict_fold_fresh; [done|].
    rewrite zip_keys, take_ge by lia. done.
Qed.

(** X19.  Writing rows and reading them back.  [insert] without column
    names takes them from the first row, and hands the client one list
    of values per row.  When the keys of the first row are distinct and
    every row has the keys of the first, in the same order, the rows
    that [fetch_all] builds from those column names and those value
    lists are the rows that were written. *)
Theorem insert_then_fetch_round_trip (first : row) (rest : list row) :
  NoDup (row_keys first) →
  Forall (λ r, row_keys r = row_keys first) rest →
  ∃ rows,
    Database.insert_payload (first :: rest) None = Some (row_keys first, rows)
    ∧ length rows = S (length rest)
    ∧ Database.rows_as_dicts (row_keys first) rows = first :: rest.
Proof.
  intros Hnd Hkeys. eexists. split; [reflexivity|]. split.
  - by rewrite length_fmap.
  - unfold Database.rows_as_dicts. rewrite <- list_fmap_compose.
    rewrite <- (list_fmap_id (first :: rest)) at 2.
    apply list_fmap_ext. intros i r Hr. cbn.
    assert (row_keys r = row_keys first) as Hsame.
    { destruct i as [|i]; [by injection Hr as ->|].
      cbn in Hr. by eapply (Forall_lookup_1 _ _ _ _ Hkeys). }
    rewrite <- Hsame. apply dict_of_own_values. by rewrite Hsame.
Qed.

Lemma insert_then_fetch_round_trip_witness :
  ∃ rows,
    Database.insert_payload Examples.chart_rows None
    = Some (["x"; "series"; "y"], rows)
    ∧ Database.rows_as_dicts ["x"; "series"; "y"] rows = Examples.chart_rows.
Proof.
  destruct (insert_then_fetch_round_trip
              [("x", CInt 1); ("series", CStr "North"); ("y", CInt 10)]
              [ [("x", CInt 1); ("series", CStr "South"); ("y", CInt 7)];
                [("x", CInt 2); ("series", CStr "North"); ("y", CInt 5)] ])
    as (rows & Hpayload & _ & Hread).
  - apply (bool_decide_unpack _). vm_compute. exact I.
  - repeat constructor.
  - exists rows. split; [exact Hpayload | exact Hread].
Defined.
(** ** The services on concrete requests *)

Section examples.

(** The example of the specification: two conditions under [AND]. *)
Example filter_year_and_territory :
  DataService._build_filter_clause
    (Some (FilterParams.mk [Examples.year_eq; Examples.territory_in] "AND")) "f"
  = ("(`year` = %(f_0)s AND `territory` IN %(f_1)s)",
     <["f_1" := VList [VStr "North"; VStr "South"]]> {[ "f_0" := VInt 2024 ]}).
Proof. by vm_compute. Qed.

Example filter_without_conditions :
  DataService._build_filter_clause (Some Examples.no_conditions) "f" = ("", ∅).
Proof. reflexivity. Qed.

Example filter_logic_in_lower_case :
  (DataService._build_filter_clause
     (Some (FilterParams.mk [Examples.year_eq; Examples.unit_is_null] "or")) "f").1
  = "(`year` = %(f_0)s OR `unit` IS NULL)".
Proof. by vm_compute. Qed.

Example sop_where_parameters :
  (SopService._build_where_clause (Some Examples.sop_filters)).2
  = <["search" := VStr "%milk%"]>
      (<["territories" := VList [VStr "North"]]>
         {[ "years" := VList [VInt 2024] ]}).
Proof. by vm_compute. Qed.

Example sop_series_names :
  match (run (SopService.get_chart_data Examples.chart_sop_service
                Examples.sop_series_request)).1 with
  | Returned response =>
      SopChartSeries.name <$> SopChartResponse.series response = ["North"; "South"]
  | Raised _ => False
  end.
Proof. by vm_compute. Qed.

Example sop_single_series_name :
  match (run (SopService.get_chart_data Examples.chart_sop_service
                Examples.sop_single_request)).1 with
  | Returned response =>
      SopChartSeries.name <$> SopChartResponse.series response = ["Прогноз"]
  | Raised _ => False
  end.
Proof. by vm_compute. Qed.

Example csv_of_one_row :
  DataService._generate_csv [[("year", CInt 2024); ("unit", CNull)]]
  = Returned (Csv.record ["year"; "unit"] +:+ Csv.record ["2024"; ""]).
Proof. by vm_compute. Qed.

Example sop_csv_header_is_labelled :
  SopService._generate_csv [[("year", CInt 2024)]]
  = Returned (Csv.record ["Год"] +:+ Csv.record ["2024"]).
Proof. by vm_compute. Qed.

Example csv_field_with_comma_is_quoted :
  Csv.field "a,b" = String dquote "a,b" +:+ String dquote "".
Proof. by vm_compute. Qed.

Example json_export_of_empty_result :
  match run (DataService.export_data Examples.data_service
               Examples.export_json_request) with
  | (Returned response, [Query _ _; Upload _ file_data content_type; Presign _ _]) =>
      file_data = "[]" ∧ content_type = "application/json"
      ∧ ExportResponse.file_size response = 2
  | _ => False
  end
  ∧ match run (SopService.export_data Examples.sop_service
                 Examples.sop_export_json_request) with
    | (Returned response, [Query _ _; Upload _ file_data _; Presign _ _]) =>
        file_data = "[]"
    | _ => False
    end.
Proof. by vm_compute. Qed.

Example json_escapes_outside_ascii :
  Json.escape true "Год" = Json.u_escape 1043 +:+ Json.u_escape 1086 +:+ Json.u_escape 1076
  ∧ Json.escape false "Год" = "Год".
Proof. by vm_compute. Qed.

End examples.
